(** * gloox: ConnectionTCPBase (src/connectiontcpbase.cpp)

    A shallow embedding of the TCP base connection of gloox and the
    properties of its teardown, send, receive and readiness-polling
    operations.

    The object is a record of its member variables.  Every operation is a
    computation in a small monad over a [World]: the object together with
    the history of the calls it made to its collaborators (mutexes, the
    operating system, the log sink, the data handler, the subclass's
    [recv]).  What the collaborators answer is not decided by this file:
    it is read from an environment [Env] of oracles which see the whole
    history, so a system call may answer differently each time.  The two
    loops of the file ([send]'s write loop and [receive]'s polling loop)
    need not terminate and run on fuel. *)

From Stdlib Require Import ZArith List Bool String Lia.
From Stdlib Require Import Strings.Byte.
Import ListNotations.
Local Open Scope Z_scope.

(** ** Machine integers (LP64: int is 32 bits, long and size_t are 64) *)

Module CInt.

Definition wrap_unsigned (bits x : Z) : Z := x mod 2 ^ bits.

Definition wrap_signed (bits x : Z) : Z :=
  (x + 2 ^ (bits - 1)) mod 2 ^ bits - 2 ^ (bits - 1).

Definition INT_MAX : Z := 2 ^ 31 - 1.
Definition LONG_MIN : Z := - 2 ^ 63.
Definition LONG_MAX : Z := 2 ^ 63 - 1.

(** static_cast<int>, conversion to long int, conversion to size_t *)
Definition to_int : Z -> Z := wrap_signed 32.
Definition to_long : Z -> Z := wrap_signed 64.
Definition to_size_t : Z -> Z := wrap_unsigned 64.

(** [long += size_t]: both operands are converted to unsigned long, added
    modulo 2^64, and the sum is converted back to long. *)
Definition long_add_size_t (a n : Z) : Z :=
  to_long (wrap_unsigned 64 (wrap_unsigned 64 a + n)).

(** C++ [/] on int truncates toward zero. *)
Definition int_div (a b : Z) : Z := Z.quot a b.

End CInt.

(** ** Data model *)

(** Modelled from the spec: gloox.h is missing; section 3 gives the coarse
    state as Disconnected / Connected. *)
Inductive ConnectionState : Type :=
  | StateDisconnected
  | StateConnected.

(** Modelled from the spec: gloox.h is missing; section 7 gives the error
    taxonomy NoError / NotConnected / IoError. *)
Inductive ConnectionError : Type :=
  | ConnNoError
  | ConnNotConnected
  | ConnIoError.

Definition ConnectionError_eqb (a b : ConnectionError) : bool :=
  match a, b with
  | ConnNoError, ConnNoError => true
  | ConnNotConnected, ConnNotConnected => true
  | ConnIoError, ConnIoError => true
  | _, _ => false
  end.

Inductive Mutex : Type :=
  | SendMutex   (* m_sendMutex *)
  | RecvMutex.  (* m_recvMutex *)

(** The member variables of ConnectionTCPBase and of its base class. *)
Record Connection : Type := mkConnection {
  m_handler : bool;               (* m_handler != 0 *)
  m_state : ConnectionState;
  m_server : string;
  m_port : Z;
  m_buf : option (list byte);     (* None is the null pointer *)
  m_socket : Z;
  m_totalBytesIn : Z;
  m_totalBytesOut : Z;
  m_bufsize : Z;
  m_cancel : bool;
  m_sendMutex : bool;             (* true: the mutex is held *)
  m_recvMutex : bool
}.

Definition set_server (v : string) (c : Connection) : Connection :=
  mkConnection (m_handler c) (m_state c) v (m_port c) (m_buf c)
    (m_socket c) (m_totalBytesIn c) (m_totalBytesOut c) (m_bufsize c)
    (m_cancel c) (m_sendMutex c) (m_recvMutex c).

Definition set_port (v : Z) (c : Connection) : Connection :=
  mkConnection (m_handler c) (m_state c) (m_server c) v (m_buf c)
    (m_socket c) (m_totalBytesIn c) (m_totalBytesOut c) (m_bufsize c)
    (m_cancel c) (m_sendMutex c) (m_recvMutex c).

Definition set_socket (v : Z) (c : Connection) : Connection :=
  mkConnection (m_handler c) (m_state c) (m_server c) (m_port c) (m_buf c)
    v (m_totalBytesIn c) (m_totalBytesOut c) (m_bufsize c) (m_cancel c)
    (m_sendMutex c) (m_recvMutex c).

Definition set_state (v : ConnectionState) (c : Connection) : Connection :=
  mkConnection (m_handler c) v (m_server c) (m_port c) (m_buf c)
    (m_socket c) (m_totalBytesIn c) (m_totalBytesOut c) (m_bufsize c)
    (m_cancel c) (m_sendMutex c) (m_recvMutex c).

Definition set_cancel (v : bool) (c : Connection) : Connection :=
  mkConnection (m_handler c) (m_state c) (m_server c) (m_port c) (m_buf c)
    (m_socket c) (m_totalBytesIn c) (m_totalBytesOut c) (m_bufsize c) v
    (m_sendMutex c) (m_recvMutex c).

Definition set_totalBytesIn (v : Z) (c : Connection) : Connection :=
  mkConnection (m_handler c) (m_state c) (m_server c) (m_port c) (m_buf c)
    (m_socket c) v (m_totalBytesOut c) (m_bufsize c) (m_cancel c)
    (m_sendMutex c) (m_recvMutex c).

Definition set_totalBytesOut (v : Z) (c : Connection) : Connection :=
  mkConnection (m_handler c) (m_state c) (m_server c) (m_port c) (m_buf c)
    (m_socket c) (m_totalBytesIn c) v (m_bufsize c) (m_cancel c)
    (m_sendMutex c) (m_recvMutex c).

Definition set_buf (v : option (list byte)) (c : Connection) : Connection :=
  mkConnection (m_handler c) (m_state c) (m_server c) (m_port c) v
    (m_socket c) (m_totalBytesIn c) (m_totalBytesOut c) (m_bufsize c)
    (m_cancel c) (m_sendMutex c) (m_recvMutex c).

Definition held (m : Mutex) (c : Connection) : bool :=
  match m with
  | SendMutex => m_sendMutex c
  | RecvMutex => m_recvMutex c
  end.

Definition set_held (m : Mutex) (v : bool) (c : Connection) : Connection :=
  match m with
  | SendMutex =>
      mkConnection (m_handler c) (m_state c) (m_server c) (m_port c)
        (m_buf c) (m_socket c) (m_totalBytesIn c) (m_totalBytesOut c)
        (m_bufsize c) (m_cancel c) v (m_recvMutex c)
  | RecvMutex =>
      mkConnection (m_handler c) (m_state c) (m_server c) (m_port c)
        (m_buf c) (m_socket c) (m_totalBytesIn c) (m_totalBytesOut c)
        (m_bufsize c) (m_cancel c) (m_sendMutex c) v
  end.

(** ** Calls to collaborators *)

Inductive LogArea : Type :=
  | LogAreaClassConnectionTCPBase.

(** A socket address as getsockname fills it in: the port in network byte
    order and the opaque rest. *)
Record SockAddr : Type := mkSockAddr {
  sin_port : Z;
  sa_rest : list byte
}.

Inductive Event : Type :=
  | EvLock (m : Mutex)
  | EvTryLock (m : Mutex) (acquired : bool)
  | EvUnlock (m : Mutex)
  | EvEpollCreate1 (flags ret : Z)
  | EvEpollCtl (epfd op fd events ret : Z)
  | EvEpollWait (epfd maxevents timeout_ms ret : Z)
  | EvClose (fd : Z)
  | EvSend (fd : Z) (buf : list byte) (len flags ret : Z)
  | EvCloseSocket (fd : Z)
  | EvLogErr (area : LogArea) (message : string)
  | EvRecv (timeout : Z) (ret : ConnectionError)
  | EvHandleDisconnect (reason : ConnectionError)
  | EvGetSockName (fd : Z) (ret : option SockAddr)
  | EvGetNameInfo (sa : SockAddr) (ret : option string)
  | EvCalloc (n size : Z) (ok : bool)
  | EvFree.

(** The history of a run, most recent call first. *)
Definition Trace : Type := list Event.

Definition EPOLLIN : Z := 1.
Definition EPOLL_CTL_ADD : Z := 1.

(** What the collaborators answer.  Each oracle sees the history so far.
    [recv] is the pure virtual single-attempt receive of the subclass and
    [handleDisconnect] the callback of the data handler: both are handed
    the object and may change it. *)
Record Env : Type := mkEnv {
  os_epoll_create1 : Trace -> Z -> Z;
  os_epoll_ctl : Trace -> Z -> Z -> Z -> Z -> Z;
  os_epoll_wait : Trace -> Z -> Z -> Z -> Z;
  os_send : Trace -> Z -> list byte -> Z -> Z -> Z;
  os_errno : Trace -> Z;
  os_strerror : Z -> string;
  os_getsockname : Trace -> Z -> option SockAddr;
  os_getnameinfo : Trace -> SockAddr -> option string;
  os_ntohs : Z -> Z;
  os_calloc : Trace -> Z -> Z -> bool;
  util_int2string : Z -> string;
  prep_idna : string -> option string;
  recv : Trace -> Z -> Connection -> ConnectionError * Connection;
  handleDisconnect : Trace -> ConnectionError -> Connection -> Connection
}.

Record World : Type := mkWorld {
  conn : Connection;
  trace : Trace
}.

(** ** The monad of operations *)

Inductive Res (A : Type) : Type :=
  | Done (a : A) (w : World)   (* the call returned [a] *)
  | Blocked (m : Mutex)        (* the call waits for a held mutex *)
  | OutOfFuel.                 (* a loop is still running *)

Arguments Done {A} a w.
Arguments Blocked {A} m.
Arguments OutOfFuel {A}.

Definition M (A : Type) : Type := World -> Res A.

Definition ret {A : Type} (a : A) : M A := fun w => Done a w.

Definition bind {A B : Type} (m : M A) (k : A -> M B) : M B :=
  fun w =>
    match m w with
    | Done a w' => k a w'
    | Blocked mx => Blocked mx
    | OutOfFuel => OutOfFuel
    end.

Declare Scope conn_scope.
Delimit Scope conn_scope with conn.

Notation "x <- c1 ;; c2" := (bind c1 (fun x => c2))
  (at level 61, c1 at next level, right associativity) : conn_scope.
Notation "c1 ;; c2" := (bind c1 (fun _ => c2))
  (at level 61, right associativity) : conn_scope.

Local Open Scope conn_scope.

Definition this : M Connection := fun w => Done (conn w) w.

Definition history : M Trace := fun w => Done (trace w) w.

Definition modify (f : Connection -> Connection) : M unit :=
  fun w => Done tt (mkWorld (f (conn w)) (trace w)).

Definition emit (e : Event) : M unit :=
  fun w => Done tt (mkWorld (conn w) (e :: trace w)).

Definition out_of_fuel {A : Type} : M A := fun _ => OutOfFuel.

(** ** util::Mutex and util::MutexGuard *)

Module MutexOps.

(** Modelled from the spec: mutex.h is missing.  A blocking acquisition
    takes a free mutex; on a held one the caller waits. *)
Definition lock (m : Mutex) : M unit :=
  fun w =>
    if held m (conn w) then Blocked m
    else Done tt (mkWorld (set_held m true (conn w)) (EvLock m :: trace w)).

(** Modelled from the spec: mutex.h is missing.  A non-blocking
    acquisition takes a free mutex and answers true; on a held one it
    answers false and changes nothing. *)
Definition trylock (m : Mutex) : M bool :=
  fun w =>
    if held m (conn w)
    then Done false (mkWorld (conn w) (EvTryLock m false :: trace w))
    else Done true
           (mkWorld (set_held m true (conn w)) (EvTryLock m true :: trace w)).

(** Modelled from the spec: mutex.h is missing.  Release. *)
Definition unlock (m : Mutex) : M unit :=
  fun w => Done tt (mkWorld (set_held m false (conn w)) (EvUnlock m :: trace w)).

End MutexOps.

(** ** The operations of ConnectionTCPBase *)

Section Operations.

Variable E : Env.

(** *** System calls and collaborators, answered by the environment *)

Definition sys_epoll_create1 (flags : Z) : M Z :=
  h <- history ;;
  let r := os_epoll_create1 E h flags in
  emit (EvEpollCreate1 flags r) ;; ret r.

Definition sys_epoll_ctl (epfd op fd events : Z) : M Z :=
  h <- history ;;
  let r := os_epoll_ctl E h epfd op fd events in
  emit (EvEpollCtl epfd op fd events r) ;; ret r.

Definition sys_epoll_wait (epfd maxevents timeout_ms : Z) : M Z :=
  h <- history ;;
  let r := os_epoll_wait E h epfd maxevents timeout_ms in
  emit (EvEpollWait epfd maxevents timeout_ms r) ;; ret r.

Definition sys_close (fd : Z) : M unit := emit (EvClose fd).

Definition sys_send (fd : Z) (buf : list byte) (len flags : Z) : M Z :=
  h <- history ;;
  let r := os_send E h fd buf len flags in
  emit (EvSend fd buf len flags r) ;; ret r.

Definition sys_getsockname (fd : Z) : M (option SockAddr) :=
  h <- history ;;
  let r := os_getsockname E h fd in
  emit (EvGetSockName fd r) ;; ret r.

Definition sys_getnameinfo (sa : SockAddr) : M (option string) :=
  h <- history ;;
  let r := os_getnameinfo E h sa in
  emit (EvGetNameInfo sa r) ;; ret r.

(** calloc answers a zeroed block or the null pointer. *)
Definition sys_calloc (n size : Z) : M (option (list byte)) :=
  h <- history ;;
  let ok := os_calloc E h n size in
  emit (EvCalloc n size ok) ;;
  ret (if ok then Some (repeat x00 (Z.to_nat (n * size))) else None).

Definition sys_free : M unit := emit EvFree.

(** Modelled from the spec: dns.h is missing.  DNS::closeSocket is the
    resolver's close routine. *)
Definition DNS_closeSocket (fd : Z) : M unit := emit (EvCloseSocket fd).

(** Modelled from the spec: logsink.h is missing.  LogSink::err hands a
    textual report to the log sink. *)
Definition log_err (area : LogArea) (message : string) : M unit :=
  emit (EvLogErr area message).

(** The subclass's single-attempt receive. *)
Definition call_recv (timeout : Z) : M ConnectionError :=
  fun w =>
    let (e, c') := recv E (trace w) timeout (conn w) in
    Done e (mkWorld c' (EvRecv timeout e :: trace w)).

(** m_handler->handleDisconnect( this, reason ) *)
Definition call_handleDisconnect (reason : ConnectionError) : M unit :=
  fun w =>
    Done tt (mkWorld (handleDisconnect E (trace w) reason (conn w))
                     (EvHandleDisconnect reason :: trace w)).

(** *** Construction and destruction *)

Definition init (server : string) (port : Z) : M unit :=
  modify (fun c =>
            match prep_idna E server with
            | Some s => set_server s c
            | None => c
            end) ;;
  modify (set_port port) ;;
  c <- this ;;
  b <- sys_calloc (m_bufsize c + 1) 1 ;;
  modify (set_buf b).

(** Modelled from the spec: connectionbase.h is missing; by section 3
    Disconnected is the initial state.  The object after the member
    initialisers shared by the two constructors; m_server and m_port are
    assigned by [init]. *)
Definition initial (cdh : bool) : Connection :=
  mkConnection cdh StateDisconnected EmptyString (-1) None
    (-1) 0 0 8192 true false false.

(** ConnectionTCPBase( logInstance, server, port ) *)
Definition ctor_log (server : string) (port : Z) (h : Trace) : Res unit :=
  init server port (mkWorld (initial false) h).

(** ConnectionTCPBase( cdh, logInstance, server, port ) *)
Definition ctor_cdh (cdh : bool) (server : string) (port : Z) (h : Trace)
  : Res unit :=
  init server port (mkWorld (initial cdh) h).

(** *** disconnect *)

Definition disconnect : M unit :=
  MutexOps.lock RecvMutex ;;
  modify (set_cancel true) ;;
  MutexOps.unlock RecvMutex.

(** *** dataAvailable *)

Definition dataAvailable (timeout : Z) : M bool :=
  c <- this ;;
  if m_socket c <? 0 then ret true
  else
    epoll_fd <- sys_epoll_create1 0 ;;
    if epoll_fd =? -1 then
      log_err LogAreaClassConnectionTCPBase "epoll_create1() failed" ;;
      ret false
    else
      r <- sys_epoll_ctl epoll_fd EPOLL_CTL_ADD (m_socket c) EPOLLIN ;;
      if r =? -1 then
        log_err LogAreaClassConnectionTCPBase "epoll_ctl() failed" ;;
        sys_close epoll_fd ;;
        ret false
      else
        nfds <- sys_epoll_wait epoll_fd 1 (CInt.int_div timeout 1000) ;;
        sys_close epoll_fd ;;
        ret (0 <? nfds).

(** *** receive *)

Fixpoint receive_loop (fuel : nat) (err : ConnectionError)
  : M ConnectionError :=
  c <- this ;;
  if m_cancel c then ret err
  else
    match fuel with
    | O => out_of_fuel
    | S fuel' =>
        e <- call_recv 1000000 ;;
        if ConnectionError_eqb e ConnNoError then receive_loop fuel' e
        else ret e
    end.

Definition receive (fuel : nat) : M ConnectionError :=
  c <- this ;;
  if m_socket c <? 0 then ret ConnNotConnected
  else
    err <- receive_loop fuel ConnNoError ;;
    ret (if ConnectionError_eqb err ConnNoError then ConnNotConnected
         else err).

(** *** send *)

(** The write loop: [num] is the size_t offset, [sent] the int result of
    the last ::send.  The length handed to ::send is cast to int and
    converted back to size_t; the ssize_t result is cast to int. *)
Fixpoint send_loop (fuel : nat) (data : list byte) (len num sent : Z)
  : M Z :=
  if negb (sent =? -1) && (num <? len) then
    match fuel with
    | O => out_of_fuel
    | S fuel' =>
        c <- this ;;
        r <- sys_send (m_socket c) (skipn (Z.to_nat num) data)
               (CInt.to_size_t (CInt.to_int (len - num))) 0 ;;
        let sent' := CInt.to_int r in
        send_loop fuel' data len (CInt.to_size_t (num + sent')) sent'
    end
  else ret sent.

Definition send_failed_message : M string :=
  h <- history ;;
  ret ("send() failed. errno: " ++ util_int2string E (os_errno E h)
       ++ ": " ++ os_strerror E (os_errno E h))%string.

Definition send (fuel : nat) (data : list byte) : M bool :=
  MutexOps.lock SendMutex ;;
  c <- this ;;
  if (match data with [] => true | _ => false end) || (m_socket c <? 0)
  then
    MutexOps.unlock SendMutex ;;
    ret false
  else
    sent <- send_loop fuel data (Z.of_nat (List.length data)) 0 0 ;;
    modify (fun c =>
              set_totalBytesOut
                (CInt.long_add_size_t (m_totalBytesOut c)
                   (Z.of_nat (List.length data))) c) ;;
    MutexOps.unlock SendMutex ;;
    (if sent =? -1 then
       message <- send_failed_message ;;
       log_err LogAreaClassConnectionTCPBase message ;;
       c' <- this ;;
       if m_handler c' then call_handleDisconnect ConnIoError else ret tt
     else ret tt) ;;
    ret (negb (sent =? -1)).

(** *** getStatistics *)

Definition getStatistics : M (Z * Z) :=
  c <- this ;;
  ret (m_totalBytesIn c, m_totalBytesOut c).

(** *** cleanup *)

Definition cleanup : M unit :=
  got_send <- MutexOps.trylock SendMutex ;;
  if negb got_send then ret tt
  else
    got_recv <- MutexOps.trylock RecvMutex ;;
    if negb got_recv then
      MutexOps.unlock SendMutex ;;
      ret tt
    else
      c <- this ;;
      (if 0 <=? m_socket c then
         DNS_closeSocket (m_socket c) ;;
         modify (set_socket (-1))
       else ret tt) ;;
      modify (set_state StateDisconnected) ;;
      modify (set_cancel true) ;;
      modify (set_totalBytesIn 0) ;;
      modify (set_totalBytesOut 0) ;;
      MutexOps.unlock RecvMutex ;;
      MutexOps.unlock SendMutex.

(** ~ConnectionTCPBase() *)
Definition dtor : M unit :=
  cleanup ;;
  sys_free ;;
  modify (set_buf None).

(** *** localPort and localInterface *)

Definition localPort : M Z :=
  c <- this ;;
  local <- sys_getsockname (m_socket c) ;;
  match local with
  | None => ret (-1)
  | Some sa => ret (os_ntohs E (sin_port sa))
  end.

Definition localInterface : M string :=
  c <- this ;;
  local <- sys_getsockname (m_socket c) ;;
  match local with
  | None => ret EmptyString
  | Some sa =>
      name <- sys_getnameinfo sa ;;
      match name with
      | Some buffer => ret buffer
      | None => ret EmptyString
      end
  end.

End Operations.

(** ** Concrete connections and environments *)

Module Scenario.

Local Open Scope string_scope.

(** An open connection with traffic behind it and both mutexes free. *)
Definition connected : Connection :=
  mkConnection true StateConnected "example.org" 5222 (Some [x00; x00])
    5 100 40 1 false false false.

(** The same connection while another thread is inside send(). *)
Definition sending : Connection := set_held SendMutex true connected.

(** The same connection while another thread is inside recv(). *)
Definition receiving : Connection := set_held RecvMutex true connected.

(** A connection whose connect attempt failed: the socket field holds a
    negative error code. *)
Definition refused : Connection :=
  mkConnection true StateDisconnected "example.org" 5222 (Some [x00; x00])
    (-10) 0 0 1 true false false.

Definition count_sends (h : Trace) : nat :=
  List.length (filter (fun e => match e with EvSend _ _ _ _ _ => true
                                        | _ => false end) h).

Definition count_recvs (h : Trace) : nat :=
  List.length (filter (fun e => match e with EvRecv _ _ => true
                                        | _ => false end) h).

(** A healthy system: every write takes the whole request, the polling
    facility works and reports one ready descriptor, nothing arrives. *)
Definition healthy : Env :=
  mkEnv (fun _ _ => 7) (fun _ _ _ _ _ => 0) (fun _ _ _ _ => 1)
    (fun _ _ _ len _ => len) (fun _ => 0) (fun _ => "Success")
    (fun _ _ => None) (fun _ _ => None) (fun p => p) (fun _ _ _ => true)
    (fun _ => "0") (fun s => Some s)
    (fun _ _ c => (ConnNoError, c)) (fun _ _ c => c).

(** The peer goes away: the first write takes two bytes, every later
    write fails with EPIPE. *)
Definition broken_pipe : Env :=
  mkEnv (fun _ _ => 7) (fun _ _ _ _ _ => 0) (fun _ _ _ _ => 0)
    (fun h _ _ _ _ => match count_sends h with O => 2 | _ => -1 end)
    (fun _ => 32) (fun _ => "Broken pipe")
    (fun _ _ => None) (fun _ _ => None) (fun p => p) (fun _ _ _ => true)
    (fun _ => "32") (fun s => Some s)
    (fun _ _ c => (ConnNoError, c)) (fun _ _ c => c).

(** The polling facility is out of descriptors. *)
Definition no_epoll : Env :=
  mkEnv (fun _ _ => -1) (fun _ _ _ _ _ => 0) (fun _ _ _ _ => 1)
    (fun _ _ _ len _ => len) (fun _ => 24) (fun _ => "Too many open files")
    (fun _ _ => None) (fun _ _ => None) (fun p => p) (fun _ _ _ => true)
    (fun _ => "24") (fun s => Some s)
    (fun _ _ c => (ConnNoError, c)) (fun _ _ c => c).

(** The polling facility refuses the registration. *)
Definition no_epoll_ctl : Env :=
  mkEnv (fun _ _ => 7) (fun _ _ _ _ _ => -1) (fun _ _ _ _ => 1)
    (fun _ _ _ len _ => len) (fun _ => 9) (fun _ => "Bad file descriptor")
    (fun _ _ => None) (fun _ _ => None) (fun p => p) (fun _ _ _ => true)
    (fun _ => "9") (fun s => Some s)
    (fun _ _ c => (ConnNoError, c)) (fun _ _ c => c).

(** Two quiet receive attempts, then the third one reports an I/O error. *)
Definition peer_fails_third : Env :=
  mkEnv (fun _ _ => 7) (fun _ _ _ _ _ => 0) (fun _ _ _ _ => 0)
    (fun _ _ _ len _ => len) (fun _ => 0) (fun _ => "Success")
    (fun _ _ => None) (fun _ _ => None) (fun p => p) (fun _ _ _ => true)
    (fun _ => "0") (fun s => Some s)
    (fun h _ c => match count_recvs h with
                  | O | S O => (ConnNoError, c)
                  | _ => (ConnIoError, c)
                  end)
    (fun _ _ c => c).

(** Every receive attempt is quiet; during the second one another thread
    calls disconnect(). *)
Definition cancelled_during_second : Env :=
  mkEnv (fun _ _ => 7) (fun _ _ _ _ _ => 0) (fun _ _ _ _ => 0)
    (fun _ _ _ len _ => len) (fun _ => 0) (fun _ => "Success")
    (fun _ _ => None) (fun _ _ => None) (fun p => p) (fun _ _ _ => true)
    (fun _ => "0") (fun s => Some s)
    (fun h _ c => match count_recvs h with
                  | O => (ConnNoError, c)
                  | _ => (ConnNoError, set_cancel true c)
                  end)
    (fun _ _ c => c).

End Scenario.

(** ** The receive loop, attempt by attempt *)

Section Attempts.

Variable E : Env.

(** One single-attempt receive with the bounded wait of [receive]: its
    outcome and the world it leaves. *)
Definition attempt (w : World) : ConnectionError * World :=
  let (e, c') := recv E (trace w) 1000000 (conn w) in
  (e, mkWorld c' (EvRecv 1000000 e :: trace w)).

(** The world after [n] attempts in a row. *)
Fixpoint after (n : nat) (w : World) : World :=
  match n with
  | O => w
  | S k => after k (snd (attempt w))
  end.

(** What the attempt made after [n] earlier ones reports. *)
Definition outcome (n : nat) (w : World) : ConnectionError :=
  fst (attempt (after n w)).

(** The first [n] attempts were all made and all quiet: before each of
    them the cancel flag was false, and each reported no error. *)
Definition quiet_until (n : nat) (w : World) : Prop :=
  forall k, (k < n)%nat ->
    m_cancel (conn (after k w)) = false /\ outcome k w = ConnNoError.

End Attempts.

(** ** The operations as a caller sees them *)

Inductive Op : Type :=
  | OpDisconnect
  | OpDataAvailable (timeout : Z)
  | OpReceive
  | OpSend (data : list byte)
  | OpGetStatistics
  | OpCleanup
  | OpLocalPort
  | OpLocalInterface.

Local Open Scope conn_scope.

Definition run_op (E : Env) (fuel : nat) (op : Op) : M unit :=
  match op with
  | OpDisconnect => disconnect
  | OpDataAvailable timeout => dataAvailable E timeout ;; ret tt
  | OpReceive => receive E fuel ;; ret tt
  | OpSend data => send E fuel data ;; ret tt
  | OpGetStatistics => getStatistics ;; ret tt
  | OpCleanup => cleanup
  | OpLocalPort => localPort E ;; ret tt
  | OpLocalInterface => localInterface E ;; ret tt
  end.

Fixpoint run_ops (E : Env) (fuel : nat) (ops : list Op) : M unit :=
  match ops with
  | [] => ret tt
  | op :: rest => run_op E fuel op ;; run_ops E fuel rest
  end.

(** The data handler's callback leaves a raised cancel flag raised. *)
Definition handler_keeps_cancel (E : Env) : Prop :=
  forall h reason c,
    m_cancel c = true -> m_cancel (handleDisconnect E h reason c) = true.

(** Every ::send either fails with -1 or takes at least one and at most
    [len] bytes. *)
Definition send_makes_progress (E : Env) : Prop :=
  forall h fd buf len flags,
    os_send E h fd buf len flags = -1 \/
    1 <= os_send E h fd buf len flags <= len.

(** The object once [send] has counted [data]: only m_totalBytesOut
    differs. *)
Definition counted (data : list byte) (c : Connection) : Connection :=
  set_totalBytesOut
    (CInt.to_long (m_totalBytesOut c + Z.of_nat (List.length data))) c.

(** What cleanup() is claimed to establish. *)
Definition torn_down (c : Connection) : Prop :=
  m_totalBytesIn c = 0 /\ m_totalBytesOut c = 0 /\
  m_state c = StateDisconnected /\ m_socket c = -1 /\ m_cancel c = true.

(** What the polling facility answers to one call of dataAvailable on
    [w]: to epoll_create1, to epoll_ctl on the context created, and to
    epoll_wait after the registration. *)
Definition answer_create (E : Env) (w : World) : Z :=
  os_epoll_create1 E (trace w) 0.

Definition answer_ctl (E : Env) (w : World) : Z :=
  os_epoll_ctl E (EvEpollCreate1 0 (answer_create E w) :: trace w)
    (answer_create E w) EPOLL_CTL_ADD (m_socket (conn w)) EPOLLIN.

Definition answer_wait (E : Env) (timeout : Z) (w : World) : Z :=
  os_epoll_wait E
    (EvEpollCtl (answer_create E w) EPOLL_CTL_ADD (m_socket (conn w))
       EPOLLIN (answer_ctl E w)
     :: EvEpollCreate1 0 (answer_create E w) :: trace w)
    (answer_create E w) 1 (CInt.int_div timeout 1000).

(** Every polling context created among the calls [added] is closed by
    the most recent of them. *)
Definition context_released (added : Trace) : Prop :=
  forall flags epfd,
    In (EvEpollCreate1 flags epfd) added -> epfd <> -1 ->
    exists earlier, added = EvClose epfd :: earlier.

(** ** What a history shows *)

(** The bytes the system took through the writes of a history, first
    byte first: a write that answered [ret] took the first [ret] bytes of
    its buffer, a failed one took none. *)
Fixpoint wire (t : Trace) : list byte :=
  match t with
  | [] => []
  | EvSend _ buf _ _ ret :: earlier =>
      wire earlier ++ firstn (Z.to_nat ret) buf
  | _ :: earlier => wire earlier
  end.

Definition is_write (e : Event) : Prop :=
  match e with
  | EvSend _ _ _ _ _ => True
  | _ => False
  end.

(** A write on descriptor [fd] whose buffer is a tail of [data] and whose
    length is the length of that tail. *)
Definition exact_write (fd : Z) (data : list byte) (e : Event) : Prop :=
  match e with
  | EvSend fd' buf len flags _ =>
      fd' = fd /\ (exists n, buf = skipn n data) /\
      len = Z.of_nat (List.length buf) /\ flags = 0
  | _ => False
  end.

(** A single-attempt receive with the bounded wait of [receive]. *)
Definition is_attempt (e : Event) : Prop :=
  exists r, e = EvRecv 1000000 r.

Definition closes_socket (e : Event) : bool :=
  match e with
  | EvCloseSocket _ => true
  | _ => false
  end.

(** What construction fixes: the handler, the server, the port and the
    receive buffer. *)
Definition settings (c : Connection)
  : bool * string * Z * Z * option (list byte) :=
  (m_handler c, m_server c, m_port c, m_bufsize c, m_buf c).

Definition recv_keeps_settings (E : Env) : Prop :=
  forall h timeout c, settings (snd (recv E h timeout c)) = settings c.

Definition handler_keeps_settings (E : Env) : Prop :=
  forall h reason c, settings (handleDisconnect E h reason c) = settings c.

Definition recv_keeps_bytesIn (E : Env) : Prop :=
  forall h timeout c,
    m_totalBytesIn (snd (recv E h timeout c)) = m_totalBytesIn c.

Definition handler_keeps_bytesIn (E : Env) : Prop :=
  forall h reason c,
    m_totalBytesIn (handleDisconnect E h reason c) = m_totalBytesIn c.

(** The system knows no socket under a negative descriptor. *)
Definition rejects_negative_descriptors (E : Env) : Prop :=
  forall h fd, fd < 0 -> os_getsockname E h fd = None.


Module Faults.

Local Open Scope string_scope.


(** Writes go through three bytes at a time (a request for nothing is
    refused); open sockets are bound to
    127.0.0.1, port 5222 (0x1466, 0x6614 in network order on a
    little-endian host); epoll_wait fails. *)
Definition bound : Env :=
  mkEnv (fun _ _ => 7) (fun _ _ _ _ _ => 0) (fun _ _ _ _ => -1)
    (fun _ _ _ len _ => if (len <? 1)%Z then (-1)%Z else Z.min 3 len)
    (fun _ => 4)
    (fun _ => "Interrupted system call")
    (fun _ fd => if (fd <? 0)%Z then None else Some (mkSockAddr 26132 []))
    (fun _ _ => Some "127.0.0.1")
    (fun p => ((p mod 256) * 256 + p / 256)%Z)
    (fun _ _ _ => true)
    (fun _ => "4")
    (fun s => if String.eqb s "" then None else Some s)
    (fun _ _ c => (ConnNoError, c)) (fun _ _ c => c).

(** Memory is exhausted and the name does not normalise. *)
Definition starved : Env :=
  mkEnv (fun _ _ => -1) (fun _ _ _ _ _ => -1) (fun _ _ _ _ => -1)
    (fun _ _ _ _ _ => -1) (fun _ => 12) (fun _ => "Out of memory")
    (fun _ _ => None) (fun _ _ => None) (fun p => p) (fun _ _ _ => false)
    (fun _ => "12") (fun _ => None)
    (fun _ _ c => (ConnIoError, c)) (fun _ _ c => c).

End Faults.

(** ** Properties *)

(** *** Machine integers *)

Lemma to_long_in_range (x : Z) :
  CInt.LONG_MIN <= x <= CInt.LONG_MAX -> CInt.to_long x = x.
Proof.
  unfold CInt.to_long, CInt.wrap_signed, CInt.LONG_MIN, CInt.LONG_MAX.
  intros H. rewrite Z.mod_small; lia.
Qed.

Lemma to_int_in_range (x : Z) :
  - 2 ^ 31 <= x <= CInt.INT_MAX -> CInt.to_int x = x.
Proof.
  unfold CInt.to_int, CInt.wrap_signed, CInt.INT_MAX.
  intros H. rewrite Z.mod_small; lia.
Qed.

Lemma to_size_t_in_range (x : Z) :
  0 <= x < 2 ^ 64 -> CInt.to_size_t x = x.
Proof.
  unfold CInt.to_size_t, CInt.wrap_unsigned. intros H.
  apply Z.mod_small; lia.
Qed.

Lemma long_add_size_t_wraps (a n : Z) :
  CInt.long_add_size_t a n = CInt.to_long (a + n).
Proof.
  unfold CInt.long_add_size_t, CInt.to_long, CInt.wrap_signed,
    CInt.wrap_unsigned.
  rewrite Zplus_mod_idemp_l, <- Z.add_assoc, Zplus_mod_idemp_l.
  rewrite Z.add_assoc. reflexivity.
Qed.

(** *** Results *)

Lemma Done_inj {A : Type} {a b : A} {w w' : World} :
  Done a w = Done b w' -> a = b /\ w = w'.
Proof. intros H. injection H as Ha Hw. split; assumption. Qed.

(** *** Unfolding the monad *)

Ltac run_monad :=
  unfold bind, ret, this, history, modify, emit, out_of_fuel,
    MutexOps.lock, MutexOps.trylock, MutexOps.unlock; simpl.

Ltac step_monad :=
  cbv beta iota delta
    [bind ret this history modify emit out_of_fuel
     MutexOps.lock MutexOps.trylock MutexOps.unlock];
  cbn [conn trace held set_held m_handler m_state m_server m_port m_buf
       m_socket m_totalBytesIn m_totalBytesOut m_bufsize m_cancel
       m_sendMutex m_recvMutex].

Ltac step_in H :=
  cbv beta iota delta
    [bind ret this history modify emit out_of_fuel
     MutexOps.lock MutexOps.trylock MutexOps.unlock] in H;
  cbn [conn trace held set_held m_handler m_state m_server m_port m_buf
       m_socket m_totalBytesIn m_totalBytesOut m_bufsize m_cancel
       m_sendMutex m_recvMutex] in H.

Ltac run_calls :=
  unfold sys_epoll_create1, sys_epoll_ctl, sys_epoll_wait, sys_close,
    sys_send, sys_getsockname, sys_getnameinfo, sys_calloc, sys_free,
    DNS_closeSocket, log_err, call_handleDisconnect; run_monad.

(** *** cleanup *)

(** C1, as stated, fails: while another thread is inside send() the
    non-blocking acquisition of the send mutex fails, cleanup() returns at
    once and the counters, the state, the socket and the cancel flag are
    what they were. *)
Lemma cleanup_skipped_while_send_in_progress :
  ~ (forall w w', cleanup w = Done tt w' -> torn_down (conn w')).
Proof.
  intros H.
  specialize (H (mkWorld Scenario.sending []) _ eq_refl).
  destruct H as [H _]. discriminate H.
Qed.

(** C1, amended: when both mutexes are free at the call, cleanup() returns
    with both byte counters zero, the state Disconnected, the cancel flag
    raised, both mutexes free again, and the socket field negative: -1 when
    a socket was open (which is then handed to the resolver's close
    routine), otherwise the negative value it held.  In particular, when
    the socket field was an open descriptor or the -1 sentinel, all of the
    claimed postcondition holds. *)
Theorem cleanup_tears_down_when_locks_free (w : World) :
  m_sendMutex (conn w) = false ->
  m_recvMutex (conn w) = false ->
  exists w',
    cleanup w = Done tt w' /\
    m_totalBytesIn (conn w') = 0 /\
    m_totalBytesOut (conn w') = 0 /\
    m_state (conn w') = StateDisconnected /\
    m_cancel (conn w') = true /\
    m_socket (conn w') =
      (if 0 <=? m_socket (conn w) then -1 else m_socket (conn w)) /\
    m_socket (conn w') < 0 /\
    m_sendMutex (conn w') = false /\
    m_recvMutex (conn w') = false /\
    trace w' =
      [EvUnlock SendMutex; EvUnlock RecvMutex]
      ++ (if 0 <=? m_socket (conn w)
          then [EvCloseSocket (m_socket (conn w))] else [])
      ++ [EvTryLock RecvMutex true; EvTryLock SendMutex true]
      ++ trace w /\
    (-1 <= m_socket (conn w) -> torn_down (conn w')).
Proof.
  intros Hs Hr. unfold cleanup. run_calls. rewrite Hs. simpl.
  rewrite Hr. simpl.
  destruct (0 <=? m_socket (conn w)) eqn:Hopen; simpl;
    eexists; (split; [reflexivity |]); simpl; unfold torn_down; simpl;
    repeat split; try reflexivity; lia.
Qed.

Lemma cleanup_tears_down_when_locks_free_witness :
  exists w',
    cleanup (mkWorld Scenario.connected []) = Done tt w' /\
    torn_down (conn w') /\
    trace w' = [EvUnlock SendMutex; EvUnlock RecvMutex; EvCloseSocket 5;
                EvTryLock RecvMutex true; EvTryLock SendMutex true].
Proof.
  destruct (cleanup_tears_down_when_locks_free
              (mkWorld Scenario.connected []) eq_refl eq_refl)
    as (w' & Hrun & _ & _ & _ & _ & _ & _ & _ & _ & Htrace & Hdown).
  exists w'. split; [exact Hrun |].
  split; [apply Hdown; simpl; lia | exact Htrace].
Defined.

(** A failed connect leaves a negative error code in the socket field:
    cleanup() resets the rest and leaves that code where it is. *)
Example cleanup_leaves_negative_socket :
  cleanup (mkWorld Scenario.refused []) =
    Done tt
      (mkWorld Scenario.refused
         [EvUnlock SendMutex; EvUnlock RecvMutex;
          EvTryLock RecvMutex true; EvTryLock SendMutex true]).
Proof. reflexivity. Qed.

(** C2: when the send mutex is held, or the send mutex is free and the
    receive mutex is held, cleanup() returns with the object exactly as it
    was, mutexes included, so the send mutex it may have taken is free
    again, and the socket is not closed: all it did was try the locks. *)
Theorem cleanup_aborts_when_a_lock_is_held (w : World) :
  m_sendMutex (conn w) = true \/
  (m_sendMutex (conn w) = false /\ m_recvMutex (conn w) = true) ->
  cleanup w =
    Done tt
      (mkWorld (conn w)
         ((if m_sendMutex (conn w)
           then [EvTryLock SendMutex false]
           else [EvUnlock SendMutex; EvTryLock RecvMutex false;
                 EvTryLock SendMutex true])
          ++ trace w)).
Proof.
  intros [Hs | [Hs Hr]]; unfold cleanup; run_calls; rewrite Hs; simpl.
  - reflexivity.
  - rewrite Hr. simpl. do 2 f_equal.
    destruct (conn w); simpl in *; subst; reflexivity.
Qed.

Lemma cleanup_aborts_when_a_lock_is_held_witness :
  cleanup (mkWorld Scenario.sending []) =
    Done tt (mkWorld Scenario.sending [EvTryLock SendMutex false]) /\
  cleanup (mkWorld Scenario.receiving []) =
    Done tt
      (mkWorld Scenario.receiving
         [EvUnlock SendMutex; EvTryLock RecvMutex false;
          EvTryLock SendMutex true]).
Proof.
  split.
  - apply (cleanup_aborts_when_a_lock_is_held
             (mkWorld Scenario.sending [])).
    left. reflexivity.
  - apply (cleanup_aborts_when_a_lock_is_held
             (mkWorld Scenario.receiving [])).
    right. split; reflexivity.
Defined.

(** *** disconnect *)

(** C8: with the receive mutex free, disconnect() takes and releases the
    receive mutex and nothing else, raises the cancel flag and returns;
    the object is otherwise what it was: socket, state, server, port, both
    byte counters, the receive buffer and both mutexes. *)
Theorem disconnect_only_raises_cancel (w : World) :
  m_recvMutex (conn w) = false ->
  exists w',
    disconnect w = Done tt w' /\
    trace w' = [EvUnlock RecvMutex; EvLock RecvMutex] ++ trace w /\
    conn w' = set_cancel true (conn w) /\
    m_cancel (conn w') = true /\
    m_socket (conn w') = m_socket (conn w) /\
    m_state (conn w') = m_state (conn w) /\
    m_server (conn w') = m_server (conn w) /\
    m_port (conn w') = m_port (conn w) /\
    m_totalBytesIn (conn w') = m_totalBytesIn (conn w) /\
    m_totalBytesOut (conn w') = m_totalBytesOut (conn w) /\
    m_buf (conn w') = m_buf (conn w) /\
    m_bufsize (conn w') = m_bufsize (conn w) /\
    m_handler (conn w') = m_handler (conn w) /\
    m_sendMutex (conn w') = m_sendMutex (conn w) /\
    m_recvMutex (conn w') = m_recvMutex (conn w).
Proof.
  intros Hr. unfold disconnect. run_monad. rewrite Hr.
  eexists. split; [reflexivity |]. simpl.
  repeat split; try reflexivity.
  unfold set_cancel. rewrite Hr. reflexivity.
Qed.

Lemma disconnect_only_raises_cancel_witness :
  disconnect (mkWorld Scenario.connected []) =
    Done tt (mkWorld (set_cancel true Scenario.connected)
               [EvUnlock RecvMutex; EvLock RecvMutex]).
Proof.
  destruct (disconnect_only_raises_cancel
              (mkWorld Scenario.connected []) eq_refl)
    as (w' & Hrun & Htrace & Hconn & _).
  rewrite Hrun. destruct w' as [c' t']. simpl in Htrace, Hconn.
  rewrite Htrace, Hconn. reflexivity.
Defined.

(** *** dataAvailable *)

(** C6: with no socket open (the socket field negative, the -1 sentinel
    included) dataAvailable answers true whatever the timeout, and the
    world is untouched: no polling context is created, nothing is waited
    for. *)
Theorem dataAvailable_without_socket (E : Env) (timeout : Z) (w : World) :
  m_socket (conn w) < 0 ->
  dataAvailable E timeout w = Done true w.
Proof.
  intros Hclosed. unfold dataAvailable. run_monad.
  apply Z.ltb_lt in Hclosed. rewrite Hclosed. reflexivity.
Qed.

Lemma dataAvailable_without_socket_witness :
  dataAvailable Scenario.healthy 1000000 (mkWorld (initial true) []) =
    Done true (mkWorld (initial true) []).
Proof.
  apply (dataAvailable_without_socket Scenario.healthy 1000000
           (mkWorld (initial true) [])).
  simpl. lia.
Defined.

Lemma dataAvailable_unfold (E : Env) (timeout : Z) (w : World) :
  0 <= m_socket (conn w) ->
  dataAvailable E timeout w =
    if answer_create E w =? -1 then
      Done false
        (mkWorld (conn w)
           ([EvLogErr LogAreaClassConnectionTCPBase "epoll_create1() failed";
             EvEpollCreate1 0 (answer_create E w)] ++ trace w))
    else if answer_ctl E w =? -1 then
      Done false
        (mkWorld (conn w)
           ([EvClose (answer_create E w);
             EvLogErr LogAreaClassConnectionTCPBase "epoll_ctl() failed";
             EvEpollCtl (answer_create E w) EPOLL_CTL_ADD
               (m_socket (conn w)) EPOLLIN (answer_ctl E w);
             EvEpollCreate1 0 (answer_create E w)] ++ trace w))
    else
      Done (0 <? answer_wait E timeout w)
        (mkWorld (conn w)
           ([EvClose (answer_create E w);
             EvEpollWait (answer_create E w) 1 (CInt.int_div timeout 1000)
               (answer_wait E timeout w);
             EvEpollCtl (answer_create E w) EPOLL_CTL_ADD
               (m_socket (conn w)) EPOLLIN (answer_ctl E w);
             EvEpollCreate1 0 (answer_create E w)] ++ trace w)).
Proof.
  intros Hopen.
  unfold dataAvailable, answer_wait, answer_ctl, answer_create. run_calls.
  replace (m_socket (conn w) <? 0) with false
    by (symmetry; apply Z.ltb_ge; exact Hopen).
  destruct (os_epoll_create1 E (trace w) 0 =? -1); [reflexivity |].
  cbn [trace conn].
  match goal with
  | |- context [os_epoll_ctl E ?h ?fd ?op ?s ?ev =? -1] =>
      destruct (os_epoll_ctl E h fd op s ev =? -1); reflexivity
  end.
Qed.

(** C7: on an open socket dataAvailable returns in one of three ways.
    When epoll_create1 fails, the failure is logged and the answer is
    false.  When the context was created and epoll_ctl fails, the failure
    is logged, the context is closed and the answer is false.  When both
    succeed, epoll_wait is called and the context is closed; the answer is
    whether a descriptor was ready.  In all three, a context that was
    created is closed by the last call made before returning. *)
Theorem dataAvailable_releases_polling_context
  (E : Env) (timeout : Z) (w : World) :
  0 <= m_socket (conn w) ->
  exists b added,
    dataAvailable E timeout w = Done b (mkWorld (conn w) (added ++ trace w)) /\
    context_released added /\
    (answer_create E w = -1 ->
       b = false /\
       added =
         [EvLogErr LogAreaClassConnectionTCPBase "epoll_create1() failed";
          EvEpollCreate1 0 (-1)]) /\
    (answer_create E w <> -1 -> answer_ctl E w = -1 ->
       b = false /\
       added =
         [EvClose (answer_create E w);
          EvLogErr LogAreaClassConnectionTCPBase "epoll_ctl() failed";
          EvEpollCtl (answer_create E w) EPOLL_CTL_ADD (m_socket (conn w))
            EPOLLIN (-1);
          EvEpollCreate1 0 (answer_create E w)]) /\
    (answer_create E w <> -1 -> answer_ctl E w <> -1 ->
       b = (0 <? answer_wait E timeout w) /\
       added =
         [EvClose (answer_create E w);
          EvEpollWait (answer_create E w) 1 (CInt.int_div timeout 1000)
            (answer_wait E timeout w);
          EvEpollCtl (answer_create E w) EPOLL_CTL_ADD (m_socket (conn w))
            EPOLLIN (answer_ctl E w);
          EvEpollCreate1 0 (answer_create E w)]).
Proof.
  intros Hopen. rewrite (dataAvailable_unfold E timeout w Hopen).
  destruct (answer_create E w =? -1) eqn:Hc.
  - apply Z.eqb_eq in Hc. do 2 eexists. split; [reflexivity |]. split.
    + intros flags epfd [Hin | [Hin | []]] Hok;
        [discriminate Hin | inversion Hin; congruence].
    + split; [intros _; rewrite Hc; split; reflexivity |].
      split; intros Hn; congruence.
  - apply Z.eqb_neq in Hc.
    destruct (answer_ctl E w =? -1) eqn:Hr.
    + apply Z.eqb_eq in Hr. do 2 eexists. split; [reflexivity |]. split.
      * intros flags epfd Hin Hok. simpl in Hin.
        destruct Hin as [Hin | [Hin | [Hin | [Hin | []]]]];
          try discriminate Hin.
        inversion Hin; subst. eexists; reflexivity.
      * split; [intros Hn; congruence |].
        split; [intros _ _; rewrite Hr; split; reflexivity |].
        intros _ Hn; congruence.
    + apply Z.eqb_neq in Hr. do 2 eexists. split; [reflexivity |]. split.
      * intros flags epfd Hin Hok. simpl in Hin.
        destruct Hin as [Hin | [Hin | [Hin | [Hin | []]]]];
          try discriminate Hin.
        inversion Hin; subst. eexists; reflexivity.
      * split; [intros Hn; congruence |].
        split; [intros _ Hn; congruence |].
        intros _ _; split; reflexivity.
Qed.

Lemma dataAvailable_releases_polling_context_witness :
  exists b added,
    dataAvailable Scenario.no_epoll_ctl 1500 (mkWorld Scenario.connected []) =
      Done b (mkWorld Scenario.connected added) /\
    b = false /\
    added =
      [EvClose 7;
       EvLogErr LogAreaClassConnectionTCPBase "epoll_ctl() failed";
       EvEpollCtl 7 EPOLL_CTL_ADD 5 EPOLLIN (-1);
       EvEpollCreate1 0 7].
Proof.
  destruct (dataAvailable_releases_polling_context Scenario.no_epoll_ctl 1500
              (mkWorld Scenario.connected []))
    as (b & added & Hrun & _ & _ & Hctl & _).
  - simpl. lia.
  - exists b, added. destruct Hctl as [Hb Hadded].
    + discriminate.
    + reflexivity.
    + rewrite Hrun, Hadded. simpl. auto.
Defined.

(** C9: when the polling context is created and the socket registered,
    dataAvailable waits with epoll_wait for [timeout / 1000] milliseconds,
    the quotient truncated toward zero.  So a timeout of 0 to 999
    microseconds is a wait of 0 milliseconds, and a non-negative timeout is
    cut by its remainder modulo 1000, less than one millisecond. *)
Theorem dataAvailable_waits_whole_milliseconds
  (E : Env) (timeout : Z) (w : World) :
  0 <= m_socket (conn w) ->
  answer_create E w <> -1 ->
  answer_ctl E w <> -1 ->
  exists ms,
    dataAvailable E timeout w =
      Done (0 <? answer_wait E timeout w)
        (mkWorld (conn w)
           ([EvClose (answer_create E w);
             EvEpollWait (answer_create E w) 1 ms (answer_wait E timeout w);
             EvEpollCtl (answer_create E w) EPOLL_CTL_ADD
               (m_socket (conn w)) EPOLLIN (answer_ctl E w);
             EvEpollCreate1 0 (answer_create E w)] ++ trace w)) /\
    ms = Z.quot timeout 1000 /\
    timeout = 1000 * ms + Z.rem timeout 1000 /\
    (0 <= timeout < 1000 -> ms = 0) /\
    (0 <= timeout -> 0 <= timeout - 1000 * ms < 1000).
Proof.
  intros Hopen Hc Hr. exists (CInt.int_div timeout 1000).
  rewrite (dataAvailable_unfold E timeout w Hopen).
  apply Z.eqb_neq in Hc, Hr. rewrite Hc, Hr.
  unfold CInt.int_div.
  pose proof (Z.quot_rem' timeout 1000) as Hqr.
  repeat split; try assumption.
  - intros Hsmall. apply Z.quot_small. exact Hsmall.
  - pose proof (Z.rem_bound_pos timeout 1000 H ltac:(lia)). lia.
  - pose proof (Z.rem_bound_pos timeout 1000 H ltac:(lia)). lia.
Qed.

Lemma dataAvailable_waits_whole_milliseconds_witness :
  dataAvailable Scenario.healthy 999 (mkWorld Scenario.connected []) =
    Done true
      (mkWorld Scenario.connected
         [EvClose 7; EvEpollWait 7 1 0 1;
          EvEpollCtl 7 EPOLL_CTL_ADD 5 EPOLLIN 0; EvEpollCreate1 0 7]).
Proof.
  destruct (dataAvailable_waits_whole_milliseconds Scenario.healthy 999
              (mkWorld Scenario.connected []))
    as (ms & Hrun & Hms & _).
  - simpl. lia.
  - discriminate.
  - discriminate.
  - rewrite Hrun, Hms. reflexivity.
Defined.

(** *** send *)

(** C4: with the send mutex free, send on an empty byte sequence and send
    with no socket open (the socket field negative) both return false;
    the object is exactly what it was, byte counters included, and the
    only calls made are the lock and unlock of the send mutex: nothing is
    written, nothing logged, the handler is not told. *)
Theorem send_rejects_empty_or_closed
  (E : Env) (fuel : nat) (data : list byte) (w : World) :
  data = [] \/ m_socket (conn w) < 0 ->
  m_sendMutex (conn w) = false ->
  send E fuel data w =
    Done false
      (mkWorld (conn w) ([EvUnlock SendMutex; EvLock SendMutex] ++ trace w)).
Proof.
  intros Hrej Hfree. unfold send. step_monad. rewrite Hfree. step_monad.
  assert (Hguard :
            (match data with [] => true | _ :: _ => false end
             || (m_socket (conn w) <? 0)) = true).
  { destruct Hrej as [-> | Hclosed]; [reflexivity |].
    apply Z.ltb_lt in Hclosed. rewrite Hclosed. apply orb_true_r. }
  rewrite Hguard. step_monad. do 2 f_equal.
  destruct (conn w); simpl in *; subst; reflexivity.
Qed.

Lemma send_rejects_empty_or_closed_witness :
  send Scenario.broken_pipe 0 [] (mkWorld Scenario.connected []) =
    Done false
      (mkWorld Scenario.connected [EvUnlock SendMutex; EvLock SendMutex]) /\
  send Scenario.broken_pipe 0 [x68; x69] (mkWorld Scenario.refused []) =
    Done false
      (mkWorld Scenario.refused [EvUnlock SendMutex; EvLock SendMutex]).
Proof.
  split.
  - apply (send_rejects_empty_or_closed Scenario.broken_pipe 0 []
             (mkWorld Scenario.connected [])).
    + left. reflexivity.
    + reflexivity.
  - apply (send_rejects_empty_or_closed Scenario.broken_pipe 0 [x68; x69]
             (mkWorld Scenario.refused [])).
    + right. simpl. lia.
    + reflexivity.
Defined.

(** The write loop only talks to the system: it leaves the object alone. *)
Lemma send_loop_keeps_object (E : Env) (data : list byte) (len : Z) :
  forall fuel num sent w r w',
    send_loop E fuel data len num sent w = Done r w' -> conn w' = conn w.
Proof.
  induction fuel as [| fuel IH]; intros num sent w r w' Hrun; simpl in Hrun;
    destruct (negb (sent =? -1) && (num <? len)).
  - discriminate Hrun.
  - inversion Hrun; reflexivity.
  - unfold sys_send in Hrun. run_monad. unfold bind, this in Hrun.
    simpl in Hrun. apply IH in Hrun. exact Hrun.
  - inversion Hrun; reflexivity.
Qed.

(** Once a write has failed the loop stops, whatever the fuel. *)
Lemma send_loop_stops_on_failure
  (E : Env) (data : list byte) (len : Z) (fuel : nat) (num : Z) (w : World) :
  send_loop E fuel data len num (-1) w = Done (-1) w.
Proof. destruct fuel; reflexivity. Qed.

(** When every write makes progress or fails, the loop returns within as
    many writes as there are bytes left. *)
Lemma send_loop_terminates (E : Env) (data : list byte) (len : Z) :
  send_makes_progress E ->
  len <= CInt.INT_MAX ->
  forall fuel num sent w,
    0 <= num <= len ->
    len - num <= Z.of_nat fuel ->
    exists r w', send_loop E fuel data len num sent w = Done r w'.
Proof.
  intros Hprog Hlen.
  induction fuel as [| fuel IH]; intros num sent w Hnum Hfuel;
    cbn [send_loop];
    destruct (negb (sent =? -1) && (num <? len)) eqn:Hcond;
    try (do 2 eexists; reflexivity).
  - apply andb_true_iff in Hcond. destruct Hcond as [_ Hlt].
    apply Z.ltb_lt in Hlt. lia.
  - apply andb_true_iff in Hcond. destruct Hcond as [_ Hlt].
    apply Z.ltb_lt in Hlt.
    unfold sys_send. step_monad.
    assert (Hreq : CInt.to_size_t (CInt.to_int (len - num)) = len - num).
    { unfold CInt.INT_MAX in Hlen.
      rewrite to_int_in_range by (unfold CInt.INT_MAX; lia).
      apply to_size_t_in_range. lia. }
    rewrite Hreq.
    destruct (Hprog (trace w) (m_socket (conn w))
                (skipn (Z.to_nat num) data) (len - num) 0) as [Hr | Hr].
    + rewrite Hr. change (CInt.to_int (-1)) with (-1).
      rewrite send_loop_stops_on_failure. do 2 eexists; reflexivity.
    + unfold CInt.INT_MAX in Hlen.
      rewrite to_int_in_range by (unfold CInt.INT_MAX; lia).
      rewrite to_size_t_in_range by lia.
      apply IH; lia.
Qed.

Lemma counted_adds_length (data : list byte) (c : Connection) :
  CInt.LONG_MIN <= m_totalBytesOut c + Z.of_nat (List.length data)
    <= CInt.LONG_MAX ->
  m_totalBytesOut (counted data c)
  = m_totalBytesOut c + Z.of_nat (List.length data).
Proof. intros Hfit. unfold counted. simpl. apply to_long_in_range, Hfit. Qed.

(** send on accepted data with the send mutex free, call by call. *)
Lemma send_unfold (E : Env) (fuel : nat) (data : list byte) (w : World) :
  data <> [] ->
  0 <= m_socket (conn w) ->
  m_sendMutex (conn w) = false ->
  send E fuel data w =
    match send_loop E fuel data (Z.of_nat (List.length data)) 0 0
            (mkWorld (set_held SendMutex true (conn w))
               (EvLock SendMutex :: trace w)) with
    | Done sent w1 =>
        let c := counted data (conn w) in
        let t := EvUnlock SendMutex :: trace w1 in
        if sent =? -1 then
          let t' :=
            EvLogErr LogAreaClassConnectionTCPBase
              ("send() failed. errno: " ++ util_int2string E (os_errno E t)
               ++ ": " ++ os_strerror E (os_errno E t))%string :: t in
          if m_handler (conn w)
          then Done false
                 (mkWorld (handleDisconnect E t' ConnIoError c)
                    (EvHandleDisconnect ConnIoError :: t'))
          else Done false (mkWorld c t')
        else Done true (mkWorld c t)
    | Blocked m => Blocked m
    | OutOfFuel => OutOfFuel
    end.
Proof.
  intros Hne Hopen Hfree. unfold send. step_monad. rewrite Hfree.
  assert (Hguard :
            (match data with [] => true | _ :: _ => false end
             || (m_socket (conn w) <? 0)) = false).
  { destruct data; [congruence |]. apply Z.ltb_ge. exact Hopen. }
  step_monad. rewrite Hguard.
  match goal with
  | |- context [send_loop E fuel data ?len 0 0 ?w0] =>
      destruct (send_loop E fuel data len 0 0 w0)
        as [sent w1 | |] eqn:Hloop
  end; try reflexivity.
  apply send_loop_keeps_object in Hloop. cbn [conn] in Hloop.
  unfold send_failed_message, log_err, call_handleDisconnect.
  step_monad. rewrite Hloop.
  cbn [set_totalBytesOut m_handler m_state m_server m_port m_buf
       m_socket m_totalBytesIn m_totalBytesOut m_bufsize m_cancel
       m_sendMutex m_recvMutex].
  rewrite long_add_size_t_wraps.
  assert (Hc : counted data (conn w) =
               mkConnection (m_handler (conn w)) (m_state (conn w))
                 (m_server (conn w)) (m_port (conn w)) (m_buf (conn w))
                 (m_socket (conn w)) (m_totalBytesIn (conn w))
                 (CInt.to_long (m_totalBytesOut (conn w)
                                + Z.of_nat (List.length data)))
                 (m_bufsize (conn w)) (m_cancel (conn w)) false
                 (m_recvMutex (conn w))).
  { unfold counted, set_totalBytesOut. rewrite Hfree. reflexivity. }
  rewrite <- Hc.
  destruct (sent =? -1); step_monad; [| reflexivity].
  change (m_handler (counted data (conn w))) with (m_handler (conn w)).
  destruct (m_handler (conn w)); reflexivity.
Qed.

Lemma send_waits_for_held_mutex
  (E : Env) (fuel : nat) (data : list byte) (w : World) :
  m_sendMutex (conn w) = true -> send E fuel data w = Blocked SendMutex.
Proof. intros Hheld. unfold send. step_monad. rewrite Hheld. reflexivity. Qed.

(** C3: let [data] be non-empty and the socket open.  Whenever send
    returns, with true after a complete write or with false after a write
    failed partway, the object it leaves is the one it found with
    m_totalBytesOut advanced by the whole length of [data] (in long
    arithmetic, so exactly by the length unless the sum leaves the range
    of long) and nothing else changed; on failure that object is first
    handed to the handler, when one is set.  And send does return, within
    as many writes as [data] has bytes, when the send mutex is free, the
    length fits an int and every write either fails or takes at least one
    byte. *)
Theorem send_counts_full_length (E : Env) (data : list byte) (w : World) :
  data <> [] ->
  0 <= m_socket (conn w) ->
  (forall fuel b w',
     send E fuel data w = Done b w' ->
     (b = true -> conn w' = counted data (conn w)) /\
     (b = false ->
      exists h,
        conn w' =
          if m_handler (conn w)
          then handleDisconnect E h ConnIoError (counted data (conn w))
          else counted data (conn w))) /\
  m_totalBytesOut (counted data (conn w))
  = CInt.to_long (m_totalBytesOut (conn w) + Z.of_nat (List.length data)) /\
  (CInt.LONG_MIN <= m_totalBytesOut (conn w) + Z.of_nat (List.length data)
     <= CInt.LONG_MAX ->
   m_totalBytesOut (counted data (conn w))
   = m_totalBytesOut (conn w) + Z.of_nat (List.length data)) /\
  (m_sendMutex (conn w) = false ->
   Z.of_nat (List.length data) <= CInt.INT_MAX ->
   send_makes_progress E ->
   exists b w', send E (List.length data) data w = Done b w').
Proof.
  intros Hne Hopen. split; [| split; [reflexivity | split]].
  - intros fuel b w' Hrun.
    destruct (m_sendMutex (conn w)) eqn:Hfree.
    { pose proof (send_waits_for_held_mutex E fuel data w Hfree) as Hwait.
      congruence. }
    rewrite (send_unfold E fuel data w Hne Hopen Hfree) in Hrun.
    destruct (send_loop E fuel data _ 0 0 _) as [sent w1 | |];
      try discriminate Hrun.
    cbv zeta in Hrun. destruct (sent =? -1).
    + destruct (m_handler (conn w));
        destruct (Done_inj Hrun) as [<- <-]; cbn [conn];
        (split; [discriminate | intros _]).
      * eexists. reflexivity.
      * exists []. reflexivity.
    + destruct (Done_inj Hrun) as [<- <-]; cbn [conn].
      split; [reflexivity | discriminate].
  - apply counted_adds_length.
  - intros Hfree Hlen Hprog.
    rewrite (send_unfold E _ data w Hne Hopen Hfree).
    destruct (send_loop_terminates E data (Z.of_nat (List.length data))
                Hprog Hlen (List.length data) 0 0
                (mkWorld (set_held SendMutex true (conn w))
                   (EvLock SendMutex :: trace w)))
      as (sent & w1 & Hloop); [lia | lia |].
    rewrite Hloop. cbv zeta.
    destruct (sent =? -1); [destruct (m_handler (conn w)) |];
      do 2 eexists; reflexivity.
Qed.

(** A write that stops partway: two of five bytes are taken, the next
    write fails, and the counter still advances by five. *)
Lemma send_counts_full_length_witness :
  exists w',
    send Scenario.broken_pipe 5 [x68; x65; x6c; x6c; x6f]
      (mkWorld Scenario.connected []) = Done false w' /\
    m_totalBytesOut (conn w') = 45 /\
    trace w' =
      [EvHandleDisconnect ConnIoError;
       EvLogErr LogAreaClassConnectionTCPBase
         "send() failed. errno: 32: Broken pipe"%string;
       EvUnlock SendMutex;
       EvSend 5 [x6c; x6c; x6f] 3 0 (-1);
       EvSend 5 [x68; x65; x6c; x6c; x6f] 5 0 2;
       EvLock SendMutex].
Proof.
  destruct (send_counts_full_length Scenario.broken_pipe
              [x68; x65; x6c; x6c; x6f] (mkWorld Scenario.connected []))
    as (Hret & _ & Hexact & _).
  - discriminate.
  - simpl. lia.
  - eexists. split; [reflexivity |]. split; [| reflexivity].
    destruct (Hret 5%nat false _ eq_refl) as [_ Hfail].
    destruct (Hfail eq_refl) as [h Hconn].
    cbn [conn] in Hconn, Hexact |- *. rewrite Hconn.
    change (m_totalBytesOut (counted [x68; x65; x6c; x6c; x6f]
                               Scenario.connected) = 45).
    rewrite Hexact; [reflexivity |].
    unfold CInt.LONG_MIN, CInt.LONG_MAX. simpl. lia.
Defined.

(** A complete write: the counter advances by the length. *)
Example send_complete_write :
  send Scenario.healthy 5 [x68; x69] (mkWorld Scenario.connected []) =
    Done true
      (mkWorld (set_totalBytesOut 42 Scenario.connected)
         [EvUnlock SendMutex; EvSend 5 [x68; x69] 2 0 2; EvLock SendMutex]).
Proof. reflexivity. Qed.

(** *** receive *)

Lemma call_recv_is_attempt (E : Env) (w : World) :
  call_recv E 1000000 w = Done (fst (attempt E w)) (snd (attempt E w)).
Proof.
  unfold call_recv, attempt.
  destruct (recv E (trace w) 1000000 (conn w)); reflexivity.
Qed.

Lemma quiet_until_step (E : Env) (n : nat) (w : World) :
  quiet_until E (S n) w ->
  m_cancel (conn w) = false /\
  fst (attempt E w) = ConnNoError /\
  quiet_until E n (snd (attempt E w)).
Proof.
  intros Hq. destruct (Hq O ltac:(lia)) as [Hc Ho].
  split; [exact Hc | split; [exact Ho |]].
  intros k Hk. exact (Hq (S k) ltac:(lia)).
Qed.

(** [n] attempts leave [n] receive calls in the history and nothing else. *)
Lemma after_makes_n_attempts (E : Env) :
  forall n w,
    exists calls,
      trace (after E n w) = calls ++ trace w /\
      List.length calls = n /\
      Forall (fun e => exists r, e = EvRecv 1000000 r) calls.
Proof.
  induction n as [| n IH]; intros w.
  - exists []. repeat split. constructor.
  - destruct (IH (snd (attempt E w))) as (calls & Ht & Hl & Hall).
    exists (calls ++ [EvRecv 1000000 (fst (attempt E w))]).
    cbn [after]. rewrite Ht. unfold attempt.
    destruct (recv E (trace w) 1000000 (conn w)) as [e c']. cbn [fst snd trace].
    rewrite <- app_assoc. split; [reflexivity |]. split.
    + rewrite length_app. simpl. lia.
    + apply Forall_app. split; [exact Hall |].
      constructor; [eexists; reflexivity | constructor].
Qed.

(** The loop leaves on a raised cancel flag with the last outcome it saw. *)
Lemma receive_loop_cancelled (E : Env) :
  forall n w err fuel,
    quiet_until E n w ->
    m_cancel (conn (after E n w)) = true ->
    (n <= fuel)%nat ->
    receive_loop E fuel err w =
      Done (match n with O => err | S _ => ConnNoError end) (after E n w).
Proof.
  induction n as [| n IH]; intros w err fuel Hq Hcancel Hfuel.
  - cbn [after] in Hcancel |- *.
    destruct fuel; cbn [receive_loop]; step_monad; rewrite Hcancel;
      reflexivity.
  - destruct (quiet_until_step E n w Hq) as (Hc & Ho & Hq').
    destruct fuel as [| fuel]; [lia |].
    cbn [receive_loop after]. step_monad. rewrite Hc.
    rewrite call_recv_is_attempt. rewrite Ho. cbn [ConnectionError_eqb].
    rewrite (IH (snd (attempt E w)) ConnNoError fuel Hq' Hcancel
               ltac:(lia)).
    destruct n; reflexivity.
Qed.

(** The loop leaves on the first attempt that reports an error. *)
Lemma receive_loop_failed (E : Env) :
  forall n w err fuel,
    quiet_until E n w ->
    m_cancel (conn (after E n w)) = false ->
    outcome E n w <> ConnNoError ->
    (n < fuel)%nat ->
    receive_loop E fuel err w = Done (outcome E n w) (after E (S n) w).
Proof.
  induction n as [| n IH]; intros w err fuel Hq Hcancel Herr Hfuel;
    (destruct fuel as [| fuel]; [lia |]).
  - unfold outcome in *. cbn [after] in *.
    cbn [receive_loop]. step_monad. rewrite Hcancel.
    rewrite call_recv_is_attempt.
    destruct (fst (attempt E w)); [congruence | reflexivity | reflexivity].
  - destruct (quiet_until_step E n w Hq) as (Hc & Ho & Hq').
    cbn [receive_loop]. step_monad. rewrite Hc.
    rewrite call_recv_is_attempt. rewrite Ho. cbn [ConnectionError_eqb].
    apply (IH (snd (attempt E w)) ConnNoError fuel Hq' Hcancel Herr).
    lia.
Qed.

(** While the attempts stay quiet the loop goes on. *)
Lemma receive_loop_running (E : Env) :
  forall fuel n w err,
    quiet_until E (S n) w ->
    (fuel <= n)%nat ->
    receive_loop E fuel err w = OutOfFuel.
Proof.
  induction fuel as [| fuel IH]; intros n w err Hq Hfuel;
    destruct (quiet_until_step E n w Hq) as (Hc & Ho & Hq');
    cbn [receive_loop]; step_monad; rewrite Hc.
  - reflexivity.
  - rewrite call_recv_is_attempt. rewrite Ho. cbn [ConnectionError_eqb].
    destruct n as [| n]; [lia |].
    apply (IH n). exact Hq'. lia.
Qed.

(** C5: with no socket open receive answers NotConnected at once and the
    world is untouched, so no attempt is made.  On an open socket, let the
    first [n] attempts all be made and quiet (the cancel flag false before
    each, each reporting NoError).  If the cancel flag is then raised,
    receive returns NotConnected after exactly these [n] attempts.  If the
    flag is still false and the next attempt reports an error, receive
    returns that error after [n + 1] attempts.  If the flag is still false
    and the next attempt is quiet too, the loop is still running after
    [n] attempts. *)
Theorem receive_polls_until_error_or_cancel
  (E : Env) (w : World) (n : nat) :
  quiet_until E n w ->
  (m_socket (conn w) < 0 ->
   forall fuel, receive E fuel w = Done ConnNotConnected w) /\
  (0 <= m_socket (conn w) ->
   (m_cancel (conn (after E n w)) = true ->
    forall fuel, (n <= fuel)%nat ->
      receive E fuel w = Done ConnNotConnected (after E n w)) /\
   (m_cancel (conn (after E n w)) = false ->
    outcome E n w <> ConnNoError ->
    forall fuel, (n < fuel)%nat ->
      receive E fuel w = Done (outcome E n w) (after E (S n) w)) /\
   (m_cancel (conn (after E n w)) = false ->
    outcome E n w = ConnNoError ->
    forall fuel, (fuel <= n)%nat -> receive E fuel w = OutOfFuel)).
Proof.
  intros Hq. split.
  - intros Hclosed fuel. unfold receive. step_monad.
    apply Z.ltb_lt in Hclosed. rewrite Hclosed. reflexivity.
  - intros Hopen.
    assert (Hguard : (m_socket (conn w) <? 0) = false)
      by (apply Z.ltb_ge; exact Hopen).
    split; [| split].
    + intros Hcancel fuel Hfuel. unfold receive. step_monad.
      rewrite Hguard.
      rewrite (receive_loop_cancelled E n w ConnNoError fuel Hq Hcancel Hfuel).
      destruct n; reflexivity.
    + intros Hcancel Herr fuel Hfuel. unfold receive. step_monad.
      rewrite Hguard.
      rewrite (receive_loop_failed E n w ConnNoError fuel Hq Hcancel Herr
                 Hfuel).
      destruct (outcome E n w); [congruence | reflexivity | reflexivity].
    + intros Hcancel Hquiet fuel Hfuel. unfold receive. step_monad.
      rewrite Hguard.
      rewrite (receive_loop_running E fuel n w ConnNoError); [reflexivity | |].
      * intros k Hk. destruct (Nat.eq_dec k n) as [-> | Hne].
        -- split; assumption.
        -- apply Hq. lia.
      * exact Hfuel.
Qed.

Lemma receive_polls_until_error_or_cancel_witness :
  receive Scenario.peer_fails_third 3 (mkWorld Scenario.connected []) =
    Done ConnIoError
      (mkWorld Scenario.connected
         [EvRecv 1000000 ConnIoError; EvRecv 1000000 ConnNoError;
          EvRecv 1000000 ConnNoError]) /\
  receive Scenario.cancelled_during_second 2
    (mkWorld Scenario.connected []) =
    Done ConnNotConnected
      (mkWorld (set_cancel true Scenario.connected)
         [EvRecv 1000000 ConnNoError; EvRecv 1000000 ConnNoError]) /\
  receive Scenario.peer_fails_third 0 (mkWorld Scenario.refused []) =
    Done ConnNotConnected (mkWorld Scenario.refused []).
Proof.
  split; [| split].
  - assert (Hq : quiet_until Scenario.peer_fails_third 2
                   (mkWorld Scenario.connected [])).
    { intros k Hk. destruct k as [| [| k]]; [split; reflexivity .. | lia]. }
    destruct (receive_polls_until_error_or_cancel Scenario.peer_fails_third
                (mkWorld Scenario.connected []) 2 Hq) as [_ Hopen].
    destruct Hopen as (_ & Hfail & _); [simpl; lia |].
    apply (Hfail eq_refl); [discriminate | lia].
  - assert (Hq : quiet_until Scenario.cancelled_during_second 2
                   (mkWorld Scenario.connected [])).
    { intros k Hk. destruct k as [| [| k]]; [split; reflexivity .. | lia]. }
    destruct (receive_polls_until_error_or_cancel
                Scenario.cancelled_during_second
                (mkWorld Scenario.connected []) 2 Hq) as [_ Hopen].
    destruct Hopen as (Hcancel & _); [simpl; lia |].
    apply (Hcancel eq_refl). lia.
  - assert (Hq : quiet_until Scenario.peer_fails_third 0
                   (mkWorld Scenario.refused [])).
    { intros k Hk. lia. }
    destruct (receive_polls_until_error_or_cancel Scenario.peer_fails_third
                (mkWorld Scenario.refused []) 0 Hq) as [Hclosed _].
    apply Hclosed. simpl. lia.
Defined.

(** *** The cancel flag *)

Section CancelFlag.

Variable E : Env.

Lemma init_keeps_cancel (server : string) (port : Z) (w : World) :
  exists w',
    init E server port w = Done tt w' /\
    m_cancel (conn w') = m_cancel (conn w).
Proof.
  unfold init, sys_calloc. step_monad.
  eexists. split; [reflexivity |].
  destruct (prep_idna E server); reflexivity.
Qed.

Lemma disconnect_raises_cancel (w w' : World) :
  disconnect w = Done tt w' -> m_cancel (conn w') = true.
Proof.
  unfold disconnect. step_monad.
  destruct (m_recvMutex (conn w)); [discriminate |].
  intros Hrun. destruct (Done_inj Hrun) as [_ <-]. reflexivity.
Qed.

Lemma dataAvailable_keeps_object (timeout : Z) (w : World) :
  exists b w',
    dataAvailable E timeout w = Done b w' /\ conn w' = conn w.
Proof.
  destruct (Z.lt_ge_cases (m_socket (conn w)) 0) as [Hclosed | Hopen].
  - exists true, w. split; [| reflexivity].
    unfold dataAvailable. step_monad.
    apply Z.ltb_lt in Hclosed. rewrite Hclosed. reflexivity.
  - rewrite (dataAvailable_unfold E timeout w Hopen).
    destruct (answer_create E w =? -1);
      [| destruct (answer_ctl E w =? -1)];
      do 2 eexists; split; reflexivity.
Qed.

Lemma receive_keeps_raised_cancel (fuel : nat) (w : World) :
  m_cancel (conn w) = true ->
  receive E fuel w = Done ConnNotConnected w.
Proof.
  intros Hcancel. unfold receive. step_monad.
  destruct (m_socket (conn w) <? 0); [reflexivity |].
  destruct fuel; cbn [receive_loop]; step_monad; rewrite Hcancel;
    reflexivity.
Qed.

Lemma send_keeps_raised_cancel
  (fuel : nat) (data : list byte) (w : World) (b : bool) (w' : World) :
  handler_keeps_cancel E ->
  m_cancel (conn w) = true ->
  send E fuel data w = Done b w' ->
  m_cancel (conn w') = true.
Proof.
  intros Hhandler Hcancel Hrun.
  destruct (m_sendMutex (conn w)) eqn:Hfree.
  { pose proof (send_waits_for_held_mutex E fuel data w Hfree). congruence. }
  destruct data as [| x data].
  { unfold send in Hrun. step_in Hrun. rewrite Hfree in Hrun.
    step_in Hrun. cbn [orb] in Hrun.
    destruct (Done_inj Hrun) as [_ <-]. exact Hcancel. }
  destruct (Z.lt_ge_cases (m_socket (conn w)) 0) as [Hclosed | Hopen].
  { unfold send in Hrun. step_in Hrun. rewrite Hfree in Hrun.
    step_in Hrun. apply Z.ltb_lt in Hclosed. rewrite Hclosed in Hrun.
    cbn [orb] in Hrun. destruct (Done_inj Hrun) as [_ <-]. exact Hcancel. }
  rewrite (send_unfold E fuel (x :: data) w ltac:(discriminate) Hopen Hfree)
    in Hrun.
  destruct (send_loop E fuel (x :: data) _ 0 0 _) as [sent w1 | |];
    try discriminate Hrun.
  cbv zeta in Hrun.
  destruct (sent =? -1); [destruct (m_handler (conn w)) |];
    destruct (Done_inj Hrun) as [_ <-]; cbn [conn];
    try apply Hhandler; exact Hcancel.
Qed.

Lemma cleanup_keeps_raised_cancel (w w' : World) :
  m_cancel (conn w) = true ->
  cleanup w = Done tt w' ->
  m_cancel (conn w') = true.
Proof.
  intros Hcancel. unfold cleanup, DNS_closeSocket. step_monad.
  destruct (m_sendMutex (conn w)); cbn [negb]; step_monad.
  - intros Hrun. destruct (Done_inj Hrun) as [_ <-]. exact Hcancel.
  - destruct (m_recvMutex (conn w)); cbn [negb]; step_monad.
    + intros Hrun. destruct (Done_inj Hrun) as [_ <-]. exact Hcancel.
    + destruct (0 <=? m_socket (conn w)); step_monad;
        intros Hrun; destruct (Done_inj Hrun) as [_ <-]; reflexivity.
Qed.

Lemma localPort_keeps_object (w : World) :
  exists p w', localPort E w = Done p w' /\ conn w' = conn w.
Proof.
  unfold localPort, sys_getsockname. step_monad.
  destruct (os_getsockname E (trace w) (m_socket (conn w)));
    do 2 eexists; split; reflexivity.
Qed.

Lemma localInterface_keeps_object (w : World) :
  exists s w', localInterface E w = Done s w' /\ conn w' = conn w.
Proof.
  unfold localInterface, sys_getsockname, sys_getnameinfo. step_monad.
  destruct (os_getsockname E (trace w) (m_socket (conn w))) as [sa |];
    step_monad; [| do 2 eexists; split; reflexivity].
  destruct (os_getnameinfo E _ sa); do 2 eexists; split; reflexivity.
Qed.

Lemma run_op_keeps_raised_cancel (fuel : nat) (op : Op) (w w' : World) :
  handler_keeps_cancel E ->
  m_cancel (conn w) = true ->
  run_op E fuel op w = Done tt w' ->
  m_cancel (conn w') = true.
Proof.
  intros Hhandler Hcancel Hrun. destruct op; cbn [run_op] in Hrun.
  - exact (disconnect_raises_cancel w w' Hrun).
  - destruct (dataAvailable_keeps_object timeout w) as (b & w1 & Hd & Hc).
    unfold bind in Hrun. rewrite Hd in Hrun.
    destruct (Done_inj Hrun) as [_ <-]. rewrite Hc. exact Hcancel.
  - unfold bind in Hrun.
    rewrite (receive_keeps_raised_cancel fuel w Hcancel) in Hrun.
    destruct (Done_inj Hrun) as [_ <-]. exact Hcancel.
  - unfold bind in Hrun.
    destruct (send E fuel data w) as [b w1 | |] eqn:Hs;
      try discriminate Hrun.
    destruct (Done_inj Hrun) as [_ <-].
    exact (send_keeps_raised_cancel fuel data w b w1 Hhandler Hcancel Hs).
  - unfold getStatistics in Hrun. step_in Hrun.
    destruct (Done_inj Hrun) as [_ <-]. exact Hcancel.
  - exact (cleanup_keeps_raised_cancel w w' Hcancel Hrun).
  - destruct (localPort_keeps_object w) as (p & w1 & Hd & Hc).
    unfold bind in Hrun. rewrite Hd in Hrun.
    destruct (Done_inj Hrun) as [_ <-]. rewrite Hc. exact Hcancel.
  - destruct (localInterface_keeps_object w) as (s & w1 & Hd & Hc).
    unfold bind in Hrun. rewrite Hd in Hrun.
    destruct (Done_inj Hrun) as [_ <-]. rewrite Hc. exact Hcancel.
Qed.

End CancelFlag.

Lemma cleanup_writes_only_true (w w' : World) :
  cleanup w = Done tt w' ->
  m_cancel (conn w') = true \/ conn w' = conn w.
Proof.
  unfold cleanup, DNS_closeSocket. step_monad.
  destruct (m_sendMutex (conn w)) eqn:Hs; cbn [negb]; step_monad.
  - intros Hrun. destruct (Done_inj Hrun) as [_ <-]. right. reflexivity.
  - destruct (m_recvMutex (conn w)) eqn:Hr; cbn [negb]; step_monad.
    + intros Hrun. destruct (Done_inj Hrun) as [_ <-]. right. cbn [conn].
      destruct (conn w); simpl in *; subst; reflexivity.
    + destruct (0 <=? m_socket (conn w)); step_monad;
        intros Hrun; destruct (Done_inj Hrun) as [_ <-]; left; reflexivity.
Qed.

Lemma dtor_keeps_raised_cancel (w w' : World) :
  m_cancel (conn w) = true ->
  dtor w = Done tt w' ->
  m_cancel (conn w') = true.
Proof.
  intros Hcancel. unfold dtor, bind.
  destruct (cleanup w) as [[] w1 | |] eqn:Hclean; try discriminate.
  pose proof (cleanup_keeps_raised_cancel w w1 Hcancel Hclean) as Hc.
  unfold sys_free. step_monad.
  intros Hrun. destruct (Done_inj Hrun) as [_ <-]. exact Hc.
Qed.

(** C10: both constructors leave the cancel flag raised.  disconnect()
    leaves it raised whenever it returns, and cleanup() either leaves it
    raised or leaves the object as it was.  And through any sequence of
    the operations of this file that starts with the flag raised, the flag
    is raised after every one of them, and after the destructor, provided
    the data handler's callback, which is not of this file, does not lower
    it. *)
Theorem cancel_once_raised_stays_raised (E : Env) :
  handler_keeps_cancel E ->
  (forall server port h,
     exists w,
       ctor_log E server port h = Done tt w /\ m_cancel (conn w) = true) /\
  (forall cdh server port h,
     exists w,
       ctor_cdh E cdh server port h = Done tt w /\
       m_cancel (conn w) = true) /\
  (forall w w', disconnect w = Done tt w' -> m_cancel (conn w') = true) /\
  (forall w w',
     cleanup w = Done tt w' ->
     m_cancel (conn w') = true \/ conn w' = conn w) /\
  (forall fuel ops w w',
     m_cancel (conn w) = true ->
     run_ops E fuel ops w = Done tt w' ->
     m_cancel (conn w') = true) /\
  (forall w w',
     m_cancel (conn w) = true ->
     dtor w = Done tt w' ->
     m_cancel (conn w') = true).
Proof.
  intros Hhandler. split; [| split; [| split; [| split; [| split]]]];
    [| | | | | exact dtor_keeps_raised_cancel].
  - intros server port h. unfold ctor_log.
    destruct (init_keeps_cancel E server port (mkWorld (initial false) h))
      as (w & Hrun & Hc).
    exists w. split; [exact Hrun | rewrite Hc; reflexivity].
  - intros cdh server port h. unfold ctor_cdh.
    destruct (init_keeps_cancel E server port (mkWorld (initial cdh) h))
      as (w & Hrun & Hc).
    exists w. split; [exact Hrun | rewrite Hc; reflexivity].
  - exact disconnect_raises_cancel.
  - exact cleanup_writes_only_true.
  - intros fuel ops. induction ops as [| op ops IH]; intros w w' Hcancel Hrun.
    + cbn [run_ops] in Hrun. unfold ret in Hrun.
      destruct (Done_inj Hrun) as [_ <-]. exact Hcancel.
    + cbn [run_ops] in Hrun. unfold bind in Hrun.
      destruct (run_op E fuel op w) as [[] w1 | |] eqn:Hop;
        try discriminate Hrun.
      apply (IH w1 w'); [| exact Hrun].
      exact (run_op_keeps_raised_cancel E fuel op w w1 Hhandler Hcancel Hop).
Qed.

Lemma cancel_once_raised_stays_raised_witness :
  exists w',
    run_ops Scenario.healthy 3
      [OpSend [x68; x69]; OpReceive; OpDataAvailable 2500; OpDisconnect;
       OpGetStatistics; OpLocalPort; OpLocalInterface; OpCleanup]
      (mkWorld (set_cancel true Scenario.connected) []) = Done tt w' /\
    m_cancel (conn w') = true.
Proof.
  destruct (cancel_once_raised_stays_raised Scenario.healthy)
    as (_ & _ & _ & _ & Hops & _).
  - intros h reason c Hc. exact Hc.
  - match eval vm_compute in
        (run_ops Scenario.healthy 3
           [OpSend [x68; x69]; OpReceive; OpDataAvailable 2500; OpDisconnect;
            OpGetStatistics; OpLocalPort; OpLocalInterface; OpCleanup]
           (mkWorld (set_cancel true Scenario.connected) []))
    with
    | Done _ ?w0 =>
        exists w0;
        assert (Hrun :
                  run_ops Scenario.healthy 3
                    [OpSend [x68; x69]; OpReceive; OpDataAvailable 2500;
                     OpDisconnect; OpGetStatistics; OpLocalPort;
                     OpLocalInterface; OpCleanup]
                    (mkWorld (set_cancel true Scenario.connected) [])
                  = Done tt w0) by (vm_compute; reflexivity);
        split; [exact Hrun |];
        exact (Hops _ _ (mkWorld (set_cancel true Scenario.connected) []) _
                 eq_refl Hrun)
    end.
Defined.

(** ** Further properties *)

(** *** What send puts on the wire *)

Lemma wire_app (recent earlier : Trace) :
  wire (recent ++ earlier) = wire earlier ++ wire recent.
Proof.
  induction recent as [| e recent IH]; simpl.
  - symmetry. apply app_nil_r.
  - destruct e; try exact IH. rewrite IH. symmetry. apply app_assoc.
Qed.

Lemma firstn_then_more {A : Type} (a b : nat) (l : list A) :
  firstn a l ++ firstn b (skipn a l) = firstn (a + b) l.
Proof.
  revert l. induction a as [| a IH]; intros l; simpl.
  - reflexivity.
  - destruct l as [| x l]; simpl.
    + destruct b; reflexivity.
    + rewrite IH. reflexivity.
Qed.

(** The calls of the write loop: only writes, the loop's answer being the
    last write's answer cast to int. *)
Lemma send_loop_calls (E : Env) (data : list byte) (len : Z) :
  forall fuel num sent w r w',
    send_loop E fuel data len num sent w = Done r w' ->
    exists writes,
      trace w' = writes ++ trace w /\
      Forall is_write writes /\
      match writes with
      | [] => r = sent
      | EvSend _ _ _ _ ret :: _ => r = CInt.to_int ret
      | _ :: _ => False
      end.
Proof.
  induction fuel as [| fuel IH]; intros num sent w r w' Hrun;
    cbn [send_loop] in Hrun;
    destruct (negb (sent =? -1) && (num <? len)).
  - discriminate Hrun.
  - destruct (Done_inj Hrun) as [<- <-]. exists []. repeat split. constructor.
  - unfold sys_send in Hrun. step_in Hrun.
    destruct (IH _ _ _ _ _ Hrun) as (writes & Ht & Hall & Hlast).
    cbn [trace] in Ht.
    exists (writes ++ [EvSend (m_socket (conn w))
                         (skipn (Z.to_nat num) data)
                         (CInt.to_size_t (CInt.to_int (len - num))) 0
                         (os_send E (trace w) (m_socket (conn w))
                            (skipn (Z.to_nat num) data)
                            (CInt.to_size_t (CInt.to_int (len - num))) 0)]).
    split; [rewrite <- app_assoc; exact Ht |].
    split; [apply Forall_app; split;
            [exact Hall | constructor; [exact I | constructor]] |].
    destruct writes as [| e writes]; [| exact Hlast].
    cbn [app]. exact Hlast.
  - destruct (Done_inj Hrun) as [<- <-]. exists []. repeat split. constructor.
Qed.

(** The write loop on a system whose writes fail or make progress: each
    write asks for exactly the unsent tail, and what was taken is the part
    of [data] from [num] on, all of it unless a write failed. *)
Lemma send_loop_wire (E : Env) (data : list byte) (fd : Z) :
  send_makes_progress E ->
  Z.of_nat (List.length data) <= CInt.INT_MAX ->
  forall fuel num sent w r w',
    m_socket (conn w) = fd ->
    (0 <= num <= Z.of_nat (List.length data))%Z ->
    sent <> -1 ->
    send_loop E fuel data (Z.of_nat (List.length data)) num sent w
      = Done r w' ->
    exists writes k,
      trace w' = writes ++ trace w /\
      Forall (exact_write fd data) writes /\
      wire writes = firstn k (skipn (Z.to_nat num) data) /\
      (r <> -1 -> (Z.to_nat num + k = List.length data)%nat) /\
      (r = -1 -> (Z.to_nat num + k < List.length data)%nat).
Proof.
  intros Hprog Hlen.
  induction fuel as [| fuel IH]; intros num sent w r w' Hfd Hnum Hsent Hrun;
    cbn [send_loop] in Hrun;
    destruct (negb (sent =? -1) && (num <? Z.of_nat (List.length data)))
      eqn:Hcond.
  - discriminate Hrun.
  - destruct (Done_inj Hrun) as [<- <-]. exists [], O.
    apply andb_false_iff in Hcond.
    assert (Hend : num = Z.of_nat (List.length data)).
    { destruct Hcond as [Hc | Hc].
      - apply negb_false_iff, Z.eqb_eq in Hc. congruence.
      - apply Z.ltb_ge in Hc. lia. }
    repeat split; try constructor; intros; try congruence; lia.
  - apply andb_true_iff in Hcond. destruct Hcond as [_ Hlt].
    apply Z.ltb_lt in Hlt.
    unfold sys_send in Hrun. step_in Hrun.
    assert (Hreq : CInt.to_size_t
                     (CInt.to_int (Z.of_nat (List.length data) - num))
                   = Z.of_nat (List.length data) - num).
    { unfold CInt.INT_MAX in Hlen.
      rewrite to_int_in_range by (unfold CInt.INT_MAX; lia).
      apply to_size_t_in_range. lia. }
    rewrite Hreq in Hrun.
    set (buf := skipn (Z.to_nat num) data) in *.
    assert (Hbuf : Z.of_nat (List.length buf)
                   = Z.of_nat (List.length data) - num).
    { unfold buf. rewrite length_skipn. lia. }
    set (ret := os_send E (trace w) (m_socket (conn w)) buf
                  (Z.of_nat (List.length data) - num) 0) in *.
    assert (Hexact : exact_write fd data
                       (EvSend (m_socket (conn w)) buf
                          (Z.of_nat (List.length data) - num) 0 ret)).
    { cbn [exact_write]. repeat split; try assumption.
      - exists (Z.to_nat num). reflexivity.
      - symmetry. exact Hbuf. }
    destruct (Hprog (trace w) (m_socket (conn w)) buf
                (Z.of_nat (List.length data) - num) 0) as [Hr | Hr];
      fold ret in Hr.
    + rewrite Hr in Hrun. change (CInt.to_int (-1)) with (-1) in Hrun.
      rewrite send_loop_stops_on_failure in Hrun.
      destruct (Done_inj Hrun) as [<- <-]. cbn [trace].
      eexists [_], O. split; [reflexivity |].
      split; [constructor; [rewrite <- Hr; exact Hexact | constructor] |].
      split; [reflexivity |]. split; [congruence | intros _; lia].
    + unfold CInt.INT_MAX in Hlen.
      rewrite to_int_in_range in Hrun by (unfold CInt.INT_MAX; lia).
      rewrite to_size_t_in_range in Hrun by lia.
      eapply IH in Hrun; [| exact Hfd | lia | lia].
      destruct Hrun as (writes & k & Ht & Hall & Hwire & Hok & Hfail).
      cbn [trace] in Ht.
      exists (writes ++ [EvSend (m_socket (conn w)) buf
                           (Z.of_nat (List.length data) - num) 0 ret]),
             (Z.to_nat ret + k)%nat.
      split; [rewrite <- app_assoc; exact Ht |].
      split; [apply Forall_app; split;
              [exact Hall | constructor; [exact Hexact | constructor]] |].
      split.
      * rewrite wire_app. cbn [wire app]. rewrite Hwire.
        rewrite <- firstn_then_more. f_equal. unfold buf.
        rewrite skipn_skipn. do 2 f_equal. lia.
      * split; [intros Hne; specialize (Hok Hne) |
                intros He; specialize (Hfail He)]; lia.
  - destruct (Done_inj Hrun) as [<- <-]. exists [], O.
    apply andb_false_iff in Hcond.
    assert (Hend : num = Z.of_nat (List.length data)).
    { destruct Hcond as [Hc | Hc].
      - apply negb_false_iff, Z.eqb_eq in Hc. congruence.
      - apply Z.ltb_ge in Hc. lia. }
    repeat split; try constructor; intros; try congruence; lia.
Qed.

(** X1: send on accepted data returns false exactly when the last ::send
    it made answered -1.  On success its calls are: lock, the writes,
    unlock.  On failure the mutex is released first, then the error is
    logged once, then the handler, if one is set, is told ConnIoError
    once. *)
Theorem send_reports_failure_after_unlock
  (E : Env) (fuel : nat) (data : list byte) (w : World) (b : bool)
  (w' : World) :
  data <> [] ->
  0 <= m_socket (conn w) ->
  send E fuel data w = Done b w' ->
  exists writes,
    Forall is_write writes /\
    (b = true ->
     trace w' = EvUnlock SendMutex :: writes ++ EvLock SendMutex :: trace w) /\
    (b = false ->
     exists message,
       trace w' =
         (if m_handler (conn w) then [EvHandleDisconnect ConnIoError] else [])
         ++ EvLogErr LogAreaClassConnectionTCPBase message
         :: EvUnlock SendMutex :: writes ++ EvLock SendMutex :: trace w) /\
    (b = false <->
     exists fd buf len flags ret earlier,
       writes = EvSend fd buf len flags ret :: earlier /\
       CInt.to_int ret = -1).
Proof.
  intros Hne Hopen Hrun.
  destruct (m_sendMutex (conn w)) eqn:Hfree.
  { pose proof (send_waits_for_held_mutex E fuel data w Hfree). congruence. }
  rewrite (send_unfold E fuel data w Hne Hopen Hfree) in Hrun.
  destruct (send_loop E fuel data _ 0 0 _) as [sent w1 | |] eqn:Hloop;
    try discriminate Hrun.
  destruct (send_loop_calls E data _ _ _ _ _ _ _ Hloop)
    as (writes & Ht & Hall & Hlast).
  cbn [trace] in Ht. cbv zeta in Hrun.
  exists writes. split; [exact Hall |].
  destruct (sent =? -1) eqn:Hsent.
  - apply Z.eqb_eq in Hsent.
    assert (Hb : b = false /\
                 exists message,
                   trace w' =
                     (if m_handler (conn w)
                      then [EvHandleDisconnect ConnIoError] else [])
                     ++ EvLogErr LogAreaClassConnectionTCPBase message
                     :: EvUnlock SendMutex
                     :: writes ++ EvLock SendMutex :: trace w).
    { destruct (m_handler (conn w));
        destruct (Done_inj Hrun) as [<- <-]; cbn [trace app];
        rewrite Ht; (split; [reflexivity |]);
        eexists; reflexivity. }
    destruct Hb as [-> Hshape].
    split; [discriminate |]. split; [intros _; exact Hshape |].
    split; [intros _ | reflexivity].
    destruct writes as [| [] earlier]; try contradiction.
    + congruence.
    + do 6 eexists. split; [reflexivity | congruence].
  - apply Z.eqb_neq in Hsent.
    destruct (Done_inj Hrun) as [<- <-]. cbn [trace].
    split; [intros _; rewrite Ht; reflexivity |].
    split; [discriminate |].
    split; [discriminate |].
    intros (fd & buf & len & flags & ret & earlier & -> & Hret).
    congruence.
Qed.

Lemma send_reports_failure_after_unlock_witness :
  exists writes,
    Forall is_write writes /\
    (false = false ->
     exists message,
       EvHandleDisconnect ConnIoError
       :: EvLogErr LogAreaClassConnectionTCPBase
            "send() failed. errno: 32: Broken pipe"
       :: EvUnlock SendMutex
       :: EvSend 5 [x6c; x6c; x6f] 3 0 (-1)
       :: EvSend 5 [x68; x65; x6c; x6c; x6f] 5 0 2
       :: [EvLock SendMutex] =
       [EvHandleDisconnect ConnIoError]
       ++ EvLogErr LogAreaClassConnectionTCPBase message
       :: EvUnlock SendMutex :: writes ++ [EvLock SendMutex]).
Proof.
  destruct (send_reports_failure_after_unlock Scenario.broken_pipe 5
              [x68; x65; x6c; x6c; x6f] (mkWorld Scenario.connected [])
              false _ ltac:(discriminate) ltac:(simpl; lia) eq_refl)
    as (writes & Hall & _ & Hfail & _).
  exists writes. split; [exact Hall | exact Hfail].
Defined.

(** X2: let the length of [data] fit an int and every ::send fail or take
    between one byte and what it was asked.  Then every write send makes
    is on the socket, points at a tail of [data] and asks for exactly the
    length of that tail.  When send returns true the bytes taken by the
    system, in order, are [data]; when it returns false they are a proper
    prefix of [data]. *)
Theorem send_writes_data_in_order
  (E : Env) (fuel : nat) (data : list byte) (w : World) (b : bool)
  (w' : World) :
  data <> [] ->
  0 <= m_socket (conn w) ->
  Z.of_nat (List.length data) <= CInt.INT_MAX ->
  send_makes_progress E ->
  send E fuel data w = Done b w' ->
  exists report writes k,
    trace w' = report ++ writes ++ EvLock SendMutex :: trace w /\
    Forall (fun e => ~ is_write e) report /\
    Forall (exact_write (m_socket (conn w)) data) writes /\
    wire (trace w') = wire (trace w) ++ firstn k data /\
    (b = true -> firstn k data = data) /\
    (b = false -> (k < List.length data)%nat).
Proof.
  intros Hne Hopen Hlen Hprog Hrun.
  destruct (m_sendMutex (conn w)) eqn:Hfree.
  { pose proof (send_waits_for_held_mutex E fuel data w Hfree). congruence. }
  rewrite (send_unfold E fuel data w Hne Hopen Hfree) in Hrun.
  destruct (send_loop E fuel data _ 0 0 _) as [sent w1 | |] eqn:Hloop;
    try discriminate Hrun.
  apply (send_loop_wire E data (m_socket (conn w)) Hprog Hlen) in Hloop;
    [| reflexivity | lia | discriminate].
  destruct Hloop as (writes & k & Ht & Hall & Hwire & Hok & Hfail).
  cbn [trace] in Ht. change (Z.to_nat 0) with O in *. cbn [skipn] in Hwire.
  assert (Hw1 : wire (trace w1) = wire (trace w) ++ firstn k data).
  { rewrite Ht, wire_app. cbn [wire]. rewrite Hwire. reflexivity. }
  cbv zeta in Hrun. destruct (sent =? -1) eqn:Hsent.
  - apply Z.eqb_eq in Hsent. specialize (Hfail Hsent).
    destruct (m_handler (conn w));
      destruct (Done_inj Hrun) as [<- <-]; cbn [trace].
    + eexists [_; _; _], writes, k. cbn [app wire]. rewrite Ht.
      split; [reflexivity |].
      split; [repeat constructor; intros [] |].
      split; [exact Hall |].
      split; [rewrite <- Ht; exact Hw1 |].
      split; [discriminate | intros _; lia].
    + eexists [_; _], writes, k. cbn [app wire]. rewrite Ht.
      split; [reflexivity |].
      split; [repeat constructor; intros [] |].
      split; [exact Hall |].
      split; [rewrite <- Ht; exact Hw1 |].
      split; [discriminate | intros _; lia].
  - apply Z.eqb_neq in Hsent. specialize (Hok Hsent).
    destruct (Done_inj Hrun) as [<- <-]. cbn [trace].
    eexists [_], writes, k. cbn [app wire]. rewrite Ht.
    split; [reflexivity |].
    split; [repeat constructor; intros [] |].
    split; [exact Hall |].
    split; [rewrite <- Ht; exact Hw1 |].
    split; [intros _; apply firstn_all2; lia | discriminate].
Qed.

Lemma send_writes_data_in_order_witness :
  exists w',
    send Faults.bound 4 [x68; x65; x6c; x6c; x6f; x21; x0a]
      (mkWorld Scenario.connected []) = Done true w' /\
    wire (trace w') = [x68; x65; x6c; x6c; x6f; x21; x0a] /\
    trace w' =
      [EvUnlock SendMutex;
       EvSend 5 [x0a] 1 0 1;
       EvSend 5 [x6c; x6f; x21; x0a] 4 0 3;
       EvSend 5 [x68; x65; x6c; x6c; x6f; x21; x0a] 7 0 3;
       EvLock SendMutex].
Proof.
  eexists. split; [reflexivity |]. split; [| reflexivity].
  edestruct (send_writes_data_in_order Faults.bound 4
               [x68; x65; x6c; x6c; x6f; x21; x0a]
               (mkWorld Scenario.connected []) true)
    as (report & writes & k & _ & _ & _ & Hwire & Hall & _).
  - discriminate.
  - simpl. lia.
  - unfold CInt.INT_MAX. simpl. lia.
  - intros h fd buf len flags. cbn [os_send Faults.bound].
    destruct (len <? 1) eqn:Hlen; [left; reflexivity | right].
    apply Z.ltb_ge in Hlen. lia.
  - reflexivity.
  - cbn [trace wire] in Hwire. rewrite (Hall eq_refl) in Hwire. exact Hwire.
Defined.




(** *** What receive does and answers *)

Lemma receive_loop_calls (E : Env) :
  forall fuel err w r w',
    receive_loop E fuel err w = Done r w' ->
    exists calls,
      trace w' = calls ++ trace w /\
      Forall is_attempt calls /\
      (List.length calls <= fuel)%nat /\
      match calls with
      | [] => r = err /\ w' = w
      | last :: _ => last = EvRecv 1000000 r
      end /\
      (r = ConnNoError -> m_cancel (conn w') = true).
Proof.
  induction fuel as [| fuel IH]; intros err w r w' Hrun;
    cbn [receive_loop] in Hrun; step_in Hrun;
    destruct (m_cancel (conn w)) eqn:Hcancel.
  - destruct (Done_inj Hrun) as [<- <-]. exists [].
    split; [reflexivity |]. split; [constructor |]. split; [simpl; lia |].
    split; [split; reflexivity | intros _; exact Hcancel].
  - discriminate Hrun.
  - destruct (Done_inj Hrun) as [<- <-]. exists [].
    split; [reflexivity |]. split; [constructor |]. split; [simpl; lia |].
    split; [split; reflexivity | intros _; exact Hcancel].
  - unfold call_recv in Hrun.
    destruct (recv E (trace w) 1000000 (conn w)) as [e c'] eqn:Hrecv.
    destruct e; cbn [ConnectionError_eqb] in Hrun.
    + destruct (IH _ _ _ _ Hrun) as (calls & Ht & Hall & Hlen & Hlast & Hquiet).
      cbn [trace] in Ht.
      exists (calls ++ [EvRecv 1000000 ConnNoError]).
      split; [rewrite <- app_assoc; exact Ht |].
      split; [apply Forall_app; split;
              [exact Hall | constructor; [eexists; reflexivity | constructor]]
             |].
      split; [rewrite length_app; simpl; lia |].
      split; [| exact Hquiet].
      destruct calls as [| last calls]; cbn [app].
      * destruct Hlast as [-> _]. reflexivity.
      * exact Hlast.
    + destruct (Done_inj Hrun) as [<- <-]. cbn [trace].
      exists [EvRecv 1000000 ConnNotConnected].
      split; [reflexivity |].
      split; [constructor; [eexists; reflexivity | constructor] |].
      split; [simpl; lia |]. split; [reflexivity | discriminate].
    + destruct (Done_inj Hrun) as [<- <-]. cbn [trace].
      exists [EvRecv 1000000 ConnIoError].
      split; [reflexivity |].
      split; [constructor; [eexists; reflexivity | constructor] |].
      split; [simpl; lia |]. split; [reflexivity | discriminate].
Qed.

(** X4: whenever receive returns, its answer is not NoError; the only
    calls it made are single-attempt receives, each with a wait of
    1,000,000 microseconds, and it took no mutex; and when its answer is
    NotConnected on an open socket, either the cancel flag is raised or
    the last attempt itself answered NotConnected. *)
Theorem receive_only_attempts_and_never_reports_success
  (E : Env) (fuel : nat) (w : World) (r : ConnectionError) (w' : World) :
  receive E fuel w = Done r w' ->
  r <> ConnNoError /\
  exists calls,
    trace w' = calls ++ trace w /\
    Forall is_attempt calls /\
    (List.length calls <= fuel)%nat /\
    (r = ConnNotConnected -> 0 <= m_socket (conn w) ->
     m_cancel (conn w') = true \/
     exists earlier, calls = EvRecv 1000000 ConnNotConnected :: earlier).
Proof.
  unfold receive. step_monad.
  destruct (m_socket (conn w) <? 0) eqn:Hsock.
  - intros Hrun. destruct (Done_inj Hrun) as [<- <-].
    split; [discriminate |]. exists [].
    split; [reflexivity |]. split; [constructor |]. split; [simpl; lia |].
    intros _ Hopen. apply Z.ltb_lt in Hsock. lia.
  - destruct (receive_loop E fuel ConnNoError w) as [err w1 | |] eqn:Hloop;
      try discriminate.
    intros Hrun. destruct (Done_inj Hrun) as [<- <-].
    destruct (receive_loop_calls E _ _ _ _ _ Hloop)
      as (calls & Ht & Hall & Hlen & Hlast & Hquiet).
    split; [destruct err; discriminate |].
    exists calls.
    split; [exact Ht |]. split; [exact Hall |]. split; [exact Hlen |].
    intros Hnc _. destruct err; cbn [ConnectionError_eqb] in Hnc.
    + left. apply Hquiet. reflexivity.
    + right. destruct calls as [| last earlier].
      * destruct Hlast as [Hbad _]. discriminate Hbad.
      * exists earlier. rewrite Hlast. reflexivity.
    + discriminate Hnc.
Qed.

Lemma receive_only_attempts_and_never_reports_success_witness :
  ConnIoError <> ConnNoError /\
  exists calls,
    [EvRecv 1000000 ConnIoError; EvRecv 1000000 ConnNoError;
     EvRecv 1000000 ConnNoError] = calls ++ [] /\
    Forall is_attempt calls /\
    (List.length calls <= 3)%nat.
Proof.
  destruct (receive_only_attempts_and_never_reports_success
              Scenario.peer_fails_third 3 (mkWorld Scenario.connected [])
              ConnIoError _ eq_refl)
    as (Hne & calls & Ht & Hall & Hlen & _).
  split; [exact Hne |]. exists calls. repeat split; assumption.
Defined.

(** X5: a receive started after disconnect() returned, on a socket open
    or not, makes no attempt and answers NotConnected: the flag raised by
    disconnect() is all receive looks at. *)
Theorem receive_after_disconnect_makes_no_attempt
  (E : Env) (fuel : nat) (w : World) :
  m_recvMutex (conn w) = false ->
  bind disconnect (fun _ => receive E fuel) w =
    Done ConnNotConnected
      (mkWorld (set_cancel true (conn w))
         ([EvUnlock RecvMutex; EvLock RecvMutex] ++ trace w)).
Proof.
  intros Hfree. unfold bind at 1, disconnect. step_monad. rewrite Hfree.
  rewrite receive_keeps_raised_cancel by reflexivity.
  do 2 f_equal. destruct (conn w); simpl in *; subst; reflexivity.
Qed.

Lemma receive_after_disconnect_makes_no_attempt_witness :
  bind disconnect (fun _ => receive Scenario.peer_fails_third 0)
    (mkWorld Scenario.connected []) =
    Done ConnNotConnected
      (mkWorld (set_cancel true Scenario.connected)
         [EvUnlock RecvMutex; EvLock RecvMutex]).
Proof.
  apply (receive_after_disconnect_makes_no_attempt Scenario.peer_fails_third
           0 (mkWorld Scenario.connected [])).
  reflexivity.
Defined.

(** *** What dataAvailable answers *)


(** A failing epoll_wait is answered false without a word to the log. *)
Example dataAvailable_silent_on_wait_failure :
  dataAvailable Faults.bound 5000 (mkWorld Scenario.connected []) =
    Done false
      (mkWorld Scenario.connected
         [EvClose 7; EvEpollWait 7 1 5 (-1);
          EvEpollCtl 7 EPOLL_CTL_ADD 5 EPOLLIN 0; EvEpollCreate1 0 7]).
Proof. reflexivity. Qed.

(** *** A connection without a socket *)

(** With no socket open and the send mutex free, the operations answer
    without touching the system. *)
Lemma closed_socket_is_inert
  (E : Env) (fuel : nat) (data : list byte) (timeout : Z) (w : World) :
  m_socket (conn w) < 0 ->
  m_sendMutex (conn w) = false ->
  send E fuel data w =
    Done false
      (mkWorld (conn w) ([EvUnlock SendMutex; EvLock SendMutex] ++ trace w)) /\
  receive E fuel w = Done ConnNotConnected w /\
  dataAvailable E timeout w = Done true w.
Proof.
  intros Hclosed Hfree. apply Z.ltb_lt in Hclosed. split; [| split].
  - unfold send. step_monad. rewrite Hfree. step_monad. rewrite Hclosed.
    rewrite orb_true_r. step_monad. do 2 f_equal.
    destruct (conn w); simpl in *; subst; reflexivity.
  - unfold receive. step_monad. rewrite Hclosed. reflexivity.
  - unfold dataAvailable. step_monad. rewrite Hclosed. reflexivity.
Qed.

(** X7: when the system knows no socket under a negative descriptor,
    localPort on a connection without a socket answers -1 and
    localInterface the empty string, each after one getsockname call,
    leaving the object as it is and taking no mutex. *)
Theorem introspection_of_closed_socket (E : Env) (w : World) :
  rejects_negative_descriptors E ->
  m_socket (conn w) < 0 ->
  localPort E w =
    Done (-1)
      (mkWorld (conn w) (EvGetSockName (m_socket (conn w)) None :: trace w)) /\
  localInterface E w =
    Done EmptyString
      (mkWorld (conn w) (EvGetSockName (m_socket (conn w)) None :: trace w)).
Proof.
  intros Hrej Hclosed.
  unfold localPort, localInterface, sys_getsockname. step_monad.
  rewrite (Hrej (trace w) (m_socket (conn w)) Hclosed).
  split; reflexivity.
Qed.

Lemma introspection_of_closed_socket_witness :
  localPort Faults.bound (mkWorld (initial true) []) =
    Done (-1) (mkWorld (initial true) [EvGetSockName (-1) None]) /\
  localInterface Faults.bound (mkWorld (initial true) []) =
    Done EmptyString (mkWorld (initial true) [EvGetSockName (-1) None]).
Proof.
  apply (introspection_of_closed_socket Faults.bound
           (mkWorld (initial true) [])).
  - intros h fd Hneg. cbn [os_getsockname Faults.bound].
    apply Z.ltb_lt in Hneg. rewrite Hneg. reflexivity.
  - simpl. lia.
Defined.

(** On a bound socket the port comes back in host byte order and the
    interface as its numeric host. *)
Example introspection_of_bound_socket :
  localPort Faults.bound (mkWorld Scenario.connected []) =
    Done 5222
      (mkWorld Scenario.connected
         [EvGetSockName 5 (Some (mkSockAddr 26132 []))]) /\
  localInterface Faults.bound (mkWorld Scenario.connected []) =
    Done "127.0.0.1"%string
      (mkWorld Scenario.connected
         [EvGetNameInfo (mkSockAddr 26132 []) (Some "127.0.0.1"%string);
          EvGetSockName 5 (Some (mkSockAddr 26132 []))]).
Proof. split; reflexivity. Qed.

(** *** Teardown *)

(** cleanup with both mutexes free, as one step. *)
Lemma cleanup_unfold_free (w : World) :
  m_sendMutex (conn w) = false ->
  m_recvMutex (conn w) = false ->
  cleanup w =
    Done tt
      (mkWorld
         (mkConnection (m_handler (conn w)) StateDisconnected
            (m_server (conn w)) (m_port (conn w)) (m_buf (conn w))
            (if 0 <=? m_socket (conn w) then -1 else m_socket (conn w))
            0 0 (m_bufsize (conn w)) true false false)
         ([EvUnlock SendMutex; EvUnlock RecvMutex]
          ++ (if 0 <=? m_socket (conn w)
              then [EvCloseSocket (m_socket (conn w))] else [])
          ++ [EvTryLock RecvMutex true; EvTryLock SendMutex true]
          ++ trace w)).
Proof.
  intros Hs Hr. unfold cleanup, DNS_closeSocket. step_monad.
  rewrite Hs. cbn [negb]. step_monad. rewrite Hr. cbn [negb]. step_monad.
  destruct (0 <=? m_socket (conn w)); reflexivity.
Qed.

(** X8: cleanup is idempotent and closes the socket at most once: after
    a cleanup that found both mutexes free, a second cleanup hands nothing
    to the resolver's close routine and leaves the object exactly as the
    first one left it. *)
Theorem cleanup_twice_closes_once (w : World) :
  m_sendMutex (conn w) = false ->
  m_recvMutex (conn w) = false ->
  exists w1 w2,
    cleanup w = Done tt w1 /\
    cleanup w1 = Done tt w2 /\
    conn w2 = conn w1 /\
    trace w2 =
      [EvUnlock SendMutex; EvUnlock RecvMutex;
       EvTryLock RecvMutex true; EvTryLock SendMutex true] ++ trace w1 /\
    List.length (filter closes_socket (trace w2))
    = ((if (0 <=? m_socket (conn w))%Z then 1 else 0)
       + List.length (filter closes_socket (trace w)))%nat.
Proof.
  intros Hs Hr. rewrite (cleanup_unfold_free w Hs Hr).
  eexists. eexists. split; [reflexivity |].
  rewrite cleanup_unfold_free by reflexivity. cbn [conn trace m_socket
    m_handler m_server m_port m_buf m_bufsize].
  assert (Hneg : (0 <=? (if 0 <=? m_socket (conn w) then -1
                         else m_socket (conn w))) = false).
  { destruct (0 <=? m_socket (conn w)) eqn:H; [reflexivity | exact H]. }
  rewrite Hneg. split; [reflexivity |]. split; [reflexivity |].
  split; [reflexivity |].
  destruct (0 <=? m_socket (conn w)); reflexivity.
Qed.

Lemma cleanup_twice_closes_once_witness :
  exists w1 w2,
    cleanup (mkWorld Scenario.connected []) = Done tt w1 /\
    cleanup w1 = Done tt w2 /\
    conn w2 = conn w1 /\
    List.length (filter closes_socket (trace w2)) = 1%nat.
Proof.
  destruct (cleanup_twice_closes_once (mkWorld Scenario.connected [])
              eq_refl eq_refl)
    as (w1 & w2 & H1 & H2 & Hc & _ & Hcount).
  exists w1, w2. repeat split; assumption.
Defined.

(** X9: after a cleanup that found both mutexes free the connection is
    inert: statistics read (0, 0), send answers false without a write,
    receive answers NotConnected without an attempt, and dataAvailable
    answers true without polling. *)
Theorem torn_down_connection_is_inert
  (E : Env) (fuel : nat) (data : list byte) (timeout : Z) (w : World) :
  m_sendMutex (conn w) = false ->
  m_recvMutex (conn w) = false ->
  exists w1,
    cleanup w = Done tt w1 /\
    getStatistics w1 = Done (0, 0) w1 /\
    send E fuel data w1 =
      Done false
        (mkWorld (conn w1)
           ([EvUnlock SendMutex; EvLock SendMutex] ++ trace w1)) /\
    receive E fuel w1 = Done ConnNotConnected w1 /\
    dataAvailable E timeout w1 = Done true w1.
Proof.
  intros Hs Hr. rewrite (cleanup_unfold_free w Hs Hr).
  eexists. split; [reflexivity |]. split; [reflexivity |].
  apply closed_socket_is_inert; [| reflexivity].
  cbn [conn m_socket].
  destruct (0 <=? m_socket (conn w)) eqn:H; [lia |].
  apply Z.leb_gt in H. exact H.
Qed.

Lemma torn_down_connection_is_inert_witness :
  exists w1,
    cleanup (mkWorld Scenario.connected []) = Done tt w1 /\
    getStatistics w1 = Done (0, 0) w1 /\
    send Scenario.healthy 5 [x68; x69] w1 =
      Done false
        (mkWorld (conn w1)
           ([EvUnlock SendMutex; EvLock SendMutex] ++ trace w1)).
Proof.
  destruct (torn_down_connection_is_inert Scenario.healthy 5 [x68; x69] 0
              (mkWorld Scenario.connected []) eq_refl eq_refl)
    as (w1 & Hclean & Hstat & Hsend & _).
  exists w1. repeat split; assumption.
Defined.

(** X10: the destructor always returns, whatever the mutexes' state, with
    the buffer freed and the mutexes as it found them.  When another
    thread holds one of the mutexes the teardown is skipped and the buffer
    is freed all the same: the socket is not closed and the state, the
    counters and the cancel flag are as they were. *)
Theorem dtor_frees_buffer_even_when_teardown_is_skipped (w : World) :
  exists w' attempts,
    dtor w = Done tt w' /\
    trace w' = EvFree :: attempts ++ trace w /\
    m_buf (conn w') = None /\
    m_sendMutex (conn w') = m_sendMutex (conn w) /\
    m_recvMutex (conn w') = m_recvMutex (conn w) /\
    (m_sendMutex (conn w) = true \/ m_recvMutex (conn w) = true ->
     conn w' = set_buf None (conn w) /\
     filter closes_socket attempts = []).
Proof.
  unfold dtor, cleanup, DNS_closeSocket, sys_free. step_monad.
  destruct (m_sendMutex (conn w)) eqn:Hs; cbn [negb]; step_monad.
  - eexists. exists [EvTryLock SendMutex false].
    split; [reflexivity |].
    cbn [conn trace set_buf m_buf m_sendMutex m_recvMutex].
    split; [reflexivity |]. split; [reflexivity |].
    split; [exact Hs |]. split; [reflexivity |].
    intros _. split; reflexivity.
  - destruct (m_recvMutex (conn w)) eqn:Hr; cbn [negb]; step_monad.
    + eexists. exists [EvUnlock SendMutex; EvTryLock RecvMutex false;
                       EvTryLock SendMutex true].
      split; [reflexivity |].
      cbn [conn trace set_buf m_buf m_sendMutex m_recvMutex].
      split; [reflexivity |]. split; [reflexivity |].
      split; [reflexivity |]. split; [reflexivity |].
      intros _. split; [| reflexivity].
      unfold set_buf. rewrite Hs, Hr. reflexivity.
    + destruct (0 <=? m_socket (conn w)); step_monad.
      * eexists. exists [EvUnlock SendMutex; EvUnlock RecvMutex;
                         EvCloseSocket (m_socket (conn w));
                         EvTryLock RecvMutex true; EvTryLock SendMutex true].
        split; [reflexivity |].
        cbn [conn trace set_buf m_buf m_sendMutex m_recvMutex].
        split; [reflexivity |]. split; [reflexivity |].
        split; [reflexivity |]. split; [reflexivity |].
        intros [H | H]; discriminate H.
      * eexists. exists [EvUnlock SendMutex; EvUnlock RecvMutex;
                         EvTryLock RecvMutex true; EvTryLock SendMutex true].
        split; [reflexivity |].
        cbn [conn trace set_buf m_buf m_sendMutex m_recvMutex].
        split; [reflexivity |]. split; [reflexivity |].
        split; [reflexivity |]. split; [reflexivity |].
        intros [H | H]; discriminate H.
Qed.

Lemma dtor_frees_buffer_even_when_teardown_is_skipped_witness :
  exists w',
    dtor (mkWorld Scenario.receiving []) = Done tt w' /\
    conn w' = set_buf None Scenario.receiving /\
    m_socket (conn w') = 5.
Proof.
  destruct (dtor_frees_buffer_even_when_teardown_is_skipped
              (mkWorld Scenario.receiving []))
    as (w' & attempts & Hrun & _ & _ & _ & _ & Hskip).
  destruct (Hskip (or_intror eq_refl)) as [Hconn _].
  exists w'. split; [exact Hrun |]. split; [exact Hconn |].
  rewrite Hconn. reflexivity.
Defined.

(** *** What construction fixes stays fixed *)

Section Settings.

Variable E : Env.
Hypothesis Hrecv : recv_keeps_settings E.
Hypothesis Hhandler : handler_keeps_settings E.

Lemma receive_loop_keeps_settings :
  forall fuel err w r w',
    receive_loop E fuel err w = Done r w' ->
    settings (conn w') = settings (conn w).
Proof.
  induction fuel as [| fuel IH]; intros err w r w' Hrun;
    cbn [receive_loop] in Hrun; step_in Hrun;
    destruct (m_cancel (conn w)); try discriminate Hrun;
    try (destruct (Done_inj Hrun) as [_ <-]; reflexivity).
  unfold call_recv in Hrun.
  pose proof (Hrecv (trace w) 1000000 (conn w)) as Hkeep.
  destruct (recv E (trace w) 1000000 (conn w)) as [e c'].
  cbn [snd] in Hkeep.
  destruct e; cbn [ConnectionError_eqb] in Hrun.
  - apply IH in Hrun. cbn [conn] in Hrun. congruence.
  - destruct (Done_inj Hrun) as [_ <-]. exact Hkeep.
  - destruct (Done_inj Hrun) as [_ <-]. exact Hkeep.
Qed.

Lemma receive_keeps_settings (fuel : nat) (w : World)
  (r : ConnectionError) (w' : World) :
  receive E fuel w = Done r w' -> settings (conn w') = settings (conn w).
Proof.
  unfold receive. step_monad.
  destruct (m_socket (conn w) <? 0).
  - intros Hrun. destruct (Done_inj Hrun) as [_ <-]. reflexivity.
  - destruct (receive_loop E fuel ConnNoError w) as [err w1 | |] eqn:Hloop;
      try discriminate.
    intros Hrun. destruct (Done_inj Hrun) as [_ <-].
    exact (receive_loop_keeps_settings _ _ _ _ _ Hloop).
Qed.

Lemma send_keeps_settings
  (fuel : nat) (data : list byte) (w : World) (b : bool) (w' : World) :
  send E fuel data w = Done b w' -> settings (conn w') = settings (conn w).
Proof.
  intros Hrun.
  destruct (m_sendMutex (conn w)) eqn:Hfree.
  { pose proof (send_waits_for_held_mutex E fuel data w Hfree). congruence. }
  destruct data as [| x data].
  { unfold send in Hrun. step_in Hrun. rewrite Hfree in Hrun.
    step_in Hrun. cbn [orb] in Hrun.
    destruct (Done_inj Hrun) as [_ <-]. reflexivity. }
  destruct (Z.lt_ge_cases (m_socket (conn w)) 0) as [Hclosed | Hopen].
  { unfold send in Hrun. step_in Hrun. rewrite Hfree in Hrun.
    step_in Hrun. apply Z.ltb_lt in Hclosed. rewrite Hclosed in Hrun.
    cbn [orb] in Hrun. destruct (Done_inj Hrun) as [_ <-]. reflexivity. }
  rewrite (send_unfold E fuel (x :: data) w ltac:(discriminate) Hopen Hfree)
    in Hrun.
  destruct (send_loop E fuel (x :: data) _ 0 0 _) as [sent w1 | |];
    try discriminate Hrun.
  cbv zeta in Hrun.
  destruct (sent =? -1); [destruct (m_handler (conn w)) |];
    destruct (Done_inj Hrun) as [_ <-]; cbn [conn];
    try rewrite Hhandler; reflexivity.
Qed.

Lemma cleanup_keeps_settings (w w' : World) :
  cleanup w = Done tt w' -> settings (conn w') = settings (conn w).
Proof.
  unfold cleanup, DNS_closeSocket. step_monad.
  destruct (m_sendMutex (conn w)); cbn [negb]; step_monad.
  - intros Hrun. destruct (Done_inj Hrun) as [_ <-]. reflexivity.
  - destruct (m_recvMutex (conn w)); cbn [negb]; step_monad.
    + intros Hrun. destruct (Done_inj Hrun) as [_ <-]. reflexivity.
    + destruct (0 <=? m_socket (conn w)); step_monad;
        intros Hrun; destruct (Done_inj Hrun) as [_ <-]; reflexivity.
Qed.

Lemma disconnect_keeps_settings (w w' : World) :
  disconnect w = Done tt w' -> settings (conn w') = settings (conn w).
Proof.
  unfold disconnect. step_monad.
  destruct (m_recvMutex (conn w)); [discriminate |].
  intros Hrun. destruct (Done_inj Hrun) as [_ <-]. reflexivity.
Qed.

Lemma run_op_keeps_settings (fuel : nat) (op : Op) (w w' : World) :
  run_op E fuel op w = Done tt w' -> settings (conn w') = settings (conn w).
Proof.
  intros Hrun. destruct op; cbn [run_op] in Hrun.
  - exact (disconnect_keeps_settings w w' Hrun).
  - destruct (dataAvailable_keeps_object E timeout w) as (b & w1 & Hd & Hc).
    unfold bind in Hrun. rewrite Hd in Hrun.
    destruct (Done_inj Hrun) as [_ <-]. rewrite Hc. reflexivity.
  - unfold bind in Hrun.
    destruct (receive E fuel w) as [r w1 | |] eqn:Hr; try discriminate Hrun.
    destruct (Done_inj Hrun) as [_ <-].
    exact (receive_keeps_settings fuel w r w1 Hr).
  - unfold bind in Hrun.
    destruct (send E fuel data w) as [b w1 | |] eqn:Hs;
      try discriminate Hrun.
    destruct (Done_inj Hrun) as [_ <-].
    exact (send_keeps_settings fuel data w b w1 Hs).
  - unfold getStatistics in Hrun. step_in Hrun.
    destruct (Done_inj Hrun) as [_ <-]. reflexivity.
  - exact (cleanup_keeps_settings w w' Hrun).
  - destruct (localPort_keeps_object E w) as (p & w1 & Hd & Hc).
    unfold bind in Hrun. rewrite Hd in Hrun.
    destruct (Done_inj Hrun) as [_ <-]. rewrite Hc. reflexivity.
  - destruct (localInterface_keeps_object E w) as (s & w1 & Hd & Hc).
    unfold bind in Hrun. rewrite Hd in Hrun.
    destruct (Done_inj Hrun) as [_ <-]. rewrite Hc. reflexivity.
Qed.

End Settings.

(** X11: no operation of the file changes what construction fixed.
    Through any sequence of disconnect, dataAvailable, receive, send,
    getStatistics, cleanup, localPort and localInterface, the handler, the
    server name, the port, the buffer size and the receive buffer are what
    they were, provided the subclass's recv and the handler's callback
    leave them alone. *)
Theorem operations_keep_settings
  (E : Env) (fuel : nat) (ops : list Op) (w w' : World) :
  recv_keeps_settings E ->
  handler_keeps_settings E ->
  run_ops E fuel ops w = Done tt w' ->
  settings (conn w') = settings (conn w).
Proof.
  intros Hrecv Hhandler. revert w.
  induction ops as [| op ops IH]; intros w Hrun; cbn [run_ops] in Hrun.
  - destruct (Done_inj Hrun) as [_ <-]. reflexivity.
  - unfold bind in Hrun.
    destruct (run_op E fuel op w) as [[] w1 | |] eqn:Hop;
      try discriminate Hrun.
    rewrite (IH w1 Hrun).
    exact (run_op_keeps_settings E Hrecv Hhandler fuel op w w1 Hop).
Qed.

Lemma operations_keep_settings_witness :
  exists w',
    run_ops Faults.bound 4
      [OpSend [x68; x65; x6c; x6c; x6f]; OpDataAvailable 2500; OpLocalPort;
       OpDisconnect; OpReceive; OpCleanup; OpGetStatistics]
      (mkWorld Scenario.connected []) = Done tt w' /\
    settings (conn w') =
      (true, "example.org"%string, 5222, 1, Some [x00; x00]).
Proof.
  match eval vm_compute in
      (run_ops Faults.bound 4
         [OpSend [x68; x65; x6c; x6c; x6f]; OpDataAvailable 2500;
          OpLocalPort; OpDisconnect; OpReceive; OpCleanup; OpGetStatistics]
         (mkWorld Scenario.connected []))
  with
  | Done _ ?w0 =>
      exists w0;
      assert (Hrun :
                run_ops Faults.bound 4
                  [OpSend [x68; x65; x6c; x6c; x6f]; OpDataAvailable 2500;
                   OpLocalPort; OpDisconnect; OpReceive; OpCleanup;
                   OpGetStatistics]
                  (mkWorld Scenario.connected []) = Done tt w0)
        by (vm_compute; reflexivity);
      split; [exact Hrun |];
      rewrite (operations_keep_settings Faults.bound 4 _
                 (mkWorld Scenario.connected []) w0
                 (fun _ _ _ => eq_refl) (fun _ _ _ => eq_refl) Hrun);
      reflexivity
  end.
Defined.

(** *** A fresh connection *)

Lemma ctor_unfold
  (E : Env) (cdh : bool) (server : string) (port : Z) (h : Trace) :
  ctor_cdh E cdh server port h =
    Done tt
      (mkWorld
         (mkConnection cdh StateDisconnected
            (match prep_idna E server with
             | Some s => s
             | None => EmptyString
             end)
            port
            (if os_calloc E h 8193 1
             then Some (repeat x00 (Z.to_nat 8193)) else None)
            (-1) 0 0 8192 true false false)
         (EvCalloc 8193 1 (os_calloc E h 8193 1) :: h)).
Proof.
  unfold ctor_cdh, init, sys_calloc. step_monad.
  destruct (prep_idna E server); reflexivity.
Qed.

(** X12: construction never fails and takes one allocation.  The new
    connection has no socket (-1), is Disconnected with the cancel flag
    raised, both counters zero and both mutexes free; its server is the
    normalised name, or empty when the name does not normalise; its
    buffer is 8193 zero bytes, or null when the allocation fails.  The
    constructor without a handler differs in the handler alone.  Such a
    connection is inert: statistics read (0, 0), send answers false,
    receive NotConnected and dataAvailable true, none touching the
    system. *)
Theorem fresh_connection_is_closed_and_inert
  (E : Env) (cdh : bool) (server : string) (port : Z) (h : Trace)
  (fuel : nat) (data : list byte) (timeout : Z) :
  exists w,
    ctor_cdh E cdh server port h = Done tt w /\
    ctor_log E server port h = ctor_cdh E false server port h /\
    trace w = EvCalloc 8193 1 (os_calloc E h 8193 1) :: h /\
    m_handler (conn w) = cdh /\
    m_server (conn w) =
      match prep_idna E server with Some s => s | None => EmptyString end /\
    m_port (conn w) = port /\
    m_socket (conn w) = -1 /\
    m_state (conn w) = StateDisconnected /\
    m_cancel (conn w) = true /\
    m_bufsize (conn w) = 8192 /\
    m_sendMutex (conn w) = false /\
    m_recvMutex (conn w) = false /\
    match m_buf (conn w) with
    | Some buf =>
        os_calloc E h 8193 1 = true /\
        Z.of_nat (List.length buf) = 8193 /\
        Forall (eq x00) buf
    | None => os_calloc E h 8193 1 = false
    end /\
    getStatistics w = Done (0, 0) w /\
    send E fuel data w =
      Done false
        (mkWorld (conn w) ([EvUnlock SendMutex; EvLock SendMutex] ++ trace w)) /\
    receive E fuel w = Done ConnNotConnected w /\
    dataAvailable E timeout w = Done true w.
Proof.
  rewrite ctor_unfold. eexists. split; [reflexivity |].
  split; [reflexivity |].
  cbn [conn trace m_handler m_state m_server m_port m_buf m_socket
       m_totalBytesIn m_totalBytesOut m_bufsize m_cancel m_sendMutex
       m_recvMutex].
  do 10 (split; [reflexivity |]).
  split.
  - destruct (os_calloc E h 8193 1); [| reflexivity].
    split; [reflexivity |]. split.
    + rewrite repeat_length. rewrite Z2Nat.id; [reflexivity | discriminate].
    + apply Forall_forall. intros x Hin. symmetry.
      exact (repeat_spec _ _ _ Hin).
  - split; [reflexivity |].
    apply closed_socket_is_inert; [cbn [conn m_socket]; lia | reflexivity].
Qed.

(** Construction when memory is exhausted and the name does not
    normalise: it returns all the same, with an empty server and a null
    buffer. *)
Example construction_survives_failures :
  ctor_log Faults.starved "no such host" 5222 [] =
    Done tt
      (mkWorld
         (mkConnection false StateDisconnected EmptyString 5222 None
            (-1) 0 0 8192 true false false)
         [EvCalloc 8193 1 false]).
Proof. reflexivity. Qed.

(** *** Who waits for which mutex *)




(** While another thread is inside recv(), send goes through and
    disconnect() waits. *)
Example full_duplex_while_receiving :
  send Scenario.healthy 1 [x68; x69] (mkWorld Scenario.receiving []) =
    Done true
      (mkWorld (set_totalBytesOut 42 Scenario.receiving)
         [EvUnlock SendMutex; EvSend 5 [x68; x69] 2 0 2; EvLock SendMutex]) /\
  disconnect (mkWorld Scenario.receiving []) = Blocked RecvMutex.
Proof. split; reflexivity. Qed.

(** *** The inbound counter *)

Section InboundCounter.

Variable E : Env.
Hypothesis Hrecv : recv_keeps_bytesIn E.
Hypothesis Hhandler : handler_keeps_bytesIn E.

Lemma receive_loop_keeps_bytesIn :
  forall fuel err w r w',
    receive_loop E fuel err w = Done r w' ->
    m_totalBytesIn (conn w') = m_totalBytesIn (conn w).
Proof.
  induction fuel as [| fuel IH]; intros err w r w' Hrun;
    cbn [receive_loop] in Hrun; step_in Hrun;
    destruct (m_cancel (conn w)); try discriminate Hrun;
    try (destruct (Done_inj Hrun) as [_ <-]; reflexivity).
  unfold call_recv in Hrun.
  pose proof (Hrecv (trace w) 1000000 (conn w)) as Hkeep.
  destruct (recv E (trace w) 1000000 (conn w)) as [e c'].
  cbn [snd] in Hkeep.
  destruct e; cbn [ConnectionError_eqb] in Hrun.
  - apply IH in Hrun. cbn [conn] in Hrun. congruence.
  - destruct (Done_inj Hrun) as [_ <-]. exact Hkeep.
  - destruct (Done_inj Hrun) as [_ <-]. exact Hkeep.
Qed.

Lemma send_keeps_bytesIn
  (fuel : nat) (data : list byte) (w : World) (b : bool) (w' : World) :
  send E fuel data w = Done b w' ->
  m_totalBytesIn (conn w') = m_totalBytesIn (conn w).
Proof.
  intros Hrun.
  destruct (m_sendMutex (conn w)) eqn:Hfree.
  { pose proof (send_waits_for_held_mutex E fuel data w Hfree). congruence. }
  destruct data as [| x data].
  { unfold send in Hrun. step_in Hrun. rewrite Hfree in Hrun.
    step_in Hrun. cbn [orb] in Hrun.
    destruct (Done_inj Hrun) as [_ <-]. reflexivity. }
  destruct (Z.lt_ge_cases (m_socket (conn w)) 0) as [Hclosed | Hopen].
  { unfold send in Hrun. step_in Hrun. rewrite Hfree in Hrun.
    step_in Hrun. apply Z.ltb_lt in Hclosed. rewrite Hclosed in Hrun.
    cbn [orb] in Hrun. destruct (Done_inj Hrun) as [_ <-]. reflexivity. }
  rewrite (send_unfold E fuel (x :: data) w ltac:(discriminate) Hopen Hfree)
    in Hrun.
  destruct (send_loop E fuel (x :: data) _ 0 0 _) as [sent w1 | |];
    try discriminate Hrun.
  cbv zeta in Hrun.
  destruct (sent =? -1); [destruct (m_handler (conn w)) |];
    destruct (Done_inj Hrun) as [_ <-]; cbn [conn];
    try rewrite Hhandler; reflexivity.
Qed.

Lemma run_op_keeps_or_resets_bytesIn (fuel : nat) (op : Op) (w w' : World) :
  run_op E fuel op w = Done tt w' ->
  m_totalBytesIn (conn w') = m_totalBytesIn (conn w) \/
  (op = OpCleanup /\ m_totalBytesIn (conn w') = 0).
Proof.
  intros Hrun. destruct op; cbn [run_op] in Hrun.
  - left. revert Hrun. unfold disconnect. step_monad.
    destruct (m_recvMutex (conn w)); [discriminate |].
    intros Hrun. destruct (Done_inj Hrun) as [_ <-]. reflexivity.
  - left. destruct (dataAvailable_keeps_object E timeout w)
      as (b & w1 & Hd & Hc).
    unfold bind in Hrun. rewrite Hd in Hrun.
    destruct (Done_inj Hrun) as [_ <-]. rewrite Hc. reflexivity.
  - left. revert Hrun. unfold bind at 1, receive. step_monad.
    destruct (m_socket (conn w) <? 0).
    + intros Hrun. destruct (Done_inj Hrun) as [_ <-]. reflexivity.
    + destruct (receive_loop E fuel ConnNoError w) as [err w1 | |] eqn:Hloop;
        try discriminate.
      intros Hrun. destruct (Done_inj Hrun) as [_ <-].
      exact (receive_loop_keeps_bytesIn _ _ _ _ _ Hloop).
  - left. unfold bind in Hrun.
    destruct (send E fuel data w) as [b w1 | |] eqn:Hs;
      try discriminate Hrun.
    destruct (Done_inj Hrun) as [_ <-].
    exact (send_keeps_bytesIn fuel data w b w1 Hs).
  - left. unfold getStatistics in Hrun. step_in Hrun.
    destruct (Done_inj Hrun) as [_ <-]. reflexivity.
  - revert Hrun. unfold cleanup, DNS_closeSocket. step_monad.
    destruct (m_sendMutex (conn w)); cbn [negb]; step_monad.
    + intros Hrun. destruct (Done_inj Hrun) as [_ <-]. left. reflexivity.
    + destruct (m_recvMutex (conn w)); cbn [negb]; step_monad.
      * intros Hrun. destruct (Done_inj Hrun) as [_ <-]. left. reflexivity.
      * destruct (0 <=? m_socket (conn w)); step_monad;
          intros Hrun; destruct (Done_inj Hrun) as [_ <-];
          right; split; reflexivity.
  - left. destruct (localPort_keeps_object E w) as (p & w1 & Hd & Hc).
    unfold bind in Hrun. rewrite Hd in Hrun.
    destruct (Done_inj Hrun) as [_ <-]. rewrite Hc. reflexivity.
  - left. destruct (localInterface_keeps_object E w) as (s & w1 & Hd & Hc).
    unfold bind in Hrun. rewrite Hd in Hrun.
    destruct (Done_inj Hrun) as [_ <-]. rewrite Hc. reflexivity.
Qed.

End InboundCounter.

(** X14: this file never counts an inbound byte.  Through any sequence
    of its operations m_totalBytesIn either keeps its value or, when a
    cleanup is among them, may have been reset to zero; without a cleanup
    it keeps its value.  Counting is left to the subclass's recv, which is
    assumed here, like the handler's callback, to leave the counter
    alone. *)
Theorem operations_never_count_inbound_bytes
  (E : Env) (fuel : nat) (ops : list Op) (w w' : World) :
  recv_keeps_bytesIn E ->
  handler_keeps_bytesIn E ->
  run_ops E fuel ops w = Done tt w' ->
  m_totalBytesIn (conn w') = m_totalBytesIn (conn w) \/
  (In OpCleanup ops /\ m_totalBytesIn (conn w') = 0).
Proof.
  intros Hrecv Hhandler. revert w.
  induction ops as [| op ops IH]; intros w Hrun; cbn [run_ops] in Hrun.
  - destruct (Done_inj Hrun) as [_ <-]. left. reflexivity.
  - unfold bind in Hrun.
    destruct (run_op E fuel op w) as [[] w1 | |] eqn:Hop;
      try discriminate Hrun.
    destruct (IH w1 Hrun) as [Hkeep | [Hin Hzero]].
    + destruct (run_op_keeps_or_resets_bytesIn E Hrecv Hhandler fuel op w w1
                  Hop) as [Hk | [-> Hz]].
      * left. congruence.
      * right. split; [left; reflexivity | congruence].
    + right. split; [right; exact Hin | exact Hzero].
Qed.

Lemma operations_never_count_inbound_bytes_witness :
  exists w',
    run_ops Scenario.peer_fails_third 5
      [OpSend [x68; x69]; OpReceive; OpDataAvailable 0; OpGetStatistics]
      (mkWorld Scenario.connected []) = Done tt w' /\
    m_totalBytesIn (conn w') = 100.
Proof.
  assert (Hr : recv_keeps_bytesIn Scenario.peer_fails_third).
  { intros h t c. cbn [recv Scenario.peer_fails_third].
    destruct (Scenario.count_recvs h) as [| [| n]]; reflexivity. }
  match eval vm_compute in
      (run_ops Scenario.peer_fails_third 5
         [OpSend [x68; x69]; OpReceive; OpDataAvailable 0; OpGetStatistics]
         (mkWorld Scenario.connected []))
  with
  | Done _ ?w0 =>
      exists w0;
      assert (Hrun :
                run_ops Scenario.peer_fails_third 5
                  [OpSend [x68; x69]; OpReceive; OpDataAvailable 0;
                   OpGetStatistics]
                  (mkWorld Scenario.connected []) = Done tt w0)
        by (vm_compute; reflexivity);
      split; [exact Hrun |];
      destruct (operations_never_count_inbound_bytes
                  Scenario.peer_fails_third 5 _
                  (mkWorld Scenario.connected []) w0
                  Hr (fun _ _ _ => eq_refl) Hrun)
        as [Hkeep | [Hin _]];
      [exact Hkeep |
       exfalso; simpl in Hin;
       repeat (destruct Hin as [Hin | Hin]; [discriminate Hin |]);
       exact Hin]
  end.
Defined.
